(** * TurboBot: the turbine telemetry library and the retrieval pipeline

    The first part embeds [src/lib/turbineData.ts] (the synthetic telemetry
    generator, the alert analysis and the dashboard metrics).  The second part
    models the chunker and the retriever of the retrieval pipeline, whose
    Python sources ([rag/document_chunker.py], [rag/retriever.py]) are not
    among the TypeScript sources; these definitions follow the written
    specification and say so.

    Numbers.  A JavaScript [number] is an IEEE-754 double.  Finite doubles are
    idealised here as exact rationals ([Q]); the one non-finite value the
    library can produce from finite inputs, the [NaN] of [0 / 0] over an empty
    slice, is represented explicitly (type [number] below). *)

From Stdlib Require Import ZArith QArith Qround Qabs List String Ascii Bool Arith Lia Lqa.
From Stdlib Require Import Sorting.Sorted Sorting.Permutation.
Import ListNotations.

Open Scope Q_scope.

(* ================================================================== *)
(** * Part I.  [src/lib/turbineData.ts]                                 *)
(* ================================================================== *)

(** ** The JavaScript primitives the library calls *)

(** [Math.max(a, b)] and [Math.min(a, b)] on finite numbers. *)
Definition Math_max (a b : Q) : Q := if Qle_bool a b then b else a.
Definition Math_min (a b : Q) : Q := if Qle_bool a b then a else b.

(** [Math.round(x)]: the integer nearest to [x], ties going up. *)
Definition Math_round (x : Q) : Q := inject_Z (Qfloor (x + (1 # 2))).

(** [Math.pow(x, 3)]. *)
Definition Math_pow3 (x : Q) : Q := x * x * x.

(** [a > b] as JavaScript evaluates it on finite numbers. *)
Definition gt (a b : Q) : bool := negb (Qle_bool a b).

(** [i < n] on loop counters. *)
Definition lt_int (i n : nat) : bool := Nat.ltb i n.

(** Values of type [number] that need not be finite. *)
Inductive number : Type :=
| Finite (q : Q)
| Infinity (negative : bool)
| NaN.

(** [a / b] on finite operands, with the IEEE results of a zero divisor. *)
Definition js_div (a b : Q) : number :=
  if Qeq_bool b 0 then
    if Qeq_bool a 0 then NaN else Infinity (negb (Qle_bool 0 a))
  else Finite (a / b).

(** [a / b] on arbitrary numbers. *)
Definition num_div (a b : number) : number :=
  match a, b with
  | NaN, _ | _, NaN => NaN
  | Finite x, Finite y => js_div x y
  | Finite _, Infinity _ => Finite 0
  | Infinity _, Infinity _ => NaN
  | Infinity s, Finite y => Infinity (xorb s (negb (Qle_bool 0 y)))
  end.

(** [a - b] on arbitrary numbers. *)
Definition num_sub (a b : number) : number :=
  match a, b with
  | NaN, _ | _, NaN => NaN
  | Finite x, Finite y => Finite (x - y)
  | Finite _, Infinity s => Infinity (negb s)
  | Infinity s, Finite _ => Infinity s
  | Infinity s, Infinity t => if Bool.eqb s t then NaN else Infinity s
  end.

(** [a * k] for a finite, positive literal [k]. *)
Definition num_scale (a : number) (k : Q) : number :=
  match a with
  | Finite x => Finite (x * k)
  | other => other
  end.

(** [a > b] on arbitrary numbers: every comparison with [NaN] is false. *)
Definition num_gt (a b : number) : bool :=
  match a, b with
  | NaN, _ | _, NaN => false
  | Finite x, Finite y => gt x y
  | Infinity s, Finite _ => negb s
  | Finite _, Infinity t => t
  | Infinity s, Infinity t => negb s && t
  end.

(** [Math.round] on arbitrary numbers. *)
Definition num_round (a : number) : number :=
  match a with
  | Finite x => Finite (Math_round x)
  | other => other
  end.

(** ** Exceptions *)

Inductive JsError : Type :=
| TypeError.

(** The outcome of a call: a returned value or a thrown exception. *)
Inductive completion (A : Type) : Type :=
| Return (a : A)
| Throw (e : JsError).
Arguments Return {A} a.
Arguments Throw {A} e.

Definition cbind {A B : Type} (c : completion A) (k : A -> completion B) : completion B :=
  match c with
  | Return a => k a
  | Throw e => Throw e
  end.

Notation "x <- c ;; k" := (cbind c (fun x => k))
  (at level 61, c at next level, right associativity).

(** ** Arrays *)

(** [a[i]] for an integer [i]: [undefined] (here [None]) outside [0 .. length-1]. *)
Definition index {A : Type} (a : list A) (i : Z) : option A :=
  if (i <? 0)%Z then None else nth_error a (Z.to_nat i).

(** [a.length], as the integer the source subtracts from. *)
Definition len {A : Type} (a : list A) : Z := Z.of_nat (List.length a).

(** Reading a property of [v]: a [TypeError] when [v] is [undefined]. *)
Definition member {A B : Type} (v : option A) (field : A -> B) : completion B :=
  match v with
  | Some o => Return (field o)
  | None => Throw TypeError
  end.

(** The index a relative argument of [slice] denotes in an array of [n] elements. *)
Definition relative_index (n k : Z) : Z :=
  if (k <? 0)%Z then Z.max (n + k) 0 else Z.min k n.

(** [a.slice(start, end)]; [end] omitted is [a.length]. *)
Definition slice {A : Type} (a : list A) (start : Z) (stop : option Z) : list A :=
  let n := len a in
  let from := relative_index n start in
  let final := match stop with Some e => relative_index n e | None => n end in
  firstn (Z.to_nat (Z.max (final - from) 0)) (skipn (Z.to_nat from) a).

(** [a.reduce((sum, d) => sum + f(d), 0)]. *)
Definition reduce_sum {A : Type} (f : A -> Q) (a : list A) : Q :=
  fold_left (fun sum d => sum + f d) a 0.

(** ** The data model *)

Inductive Status : Type :=
| operating
| warning_status
| offline.

Record TurbineDataPoint : Type := {
  timestamp : string;
  wind_speed : Q;
  power_output : Q;
  temperature : Q;
  vibration : Q;
  status : Status
}.

Inductive AlertType : Type :=
| high_temp
| high_vibration
| low_performance.

Inductive Severity : Type :=
| warning
| critical.

Record TurbineAlert : Type := {
  id : string;
  type : AlertType;
  severity : Severity;
  message : string;
  alert_timestamp : string
}.

(** ** The platform a call runs on

    [new Date()] reads the clock and every [Math.random()] advances the
    generator: the two are the state a call of [generateTurbineData] observes.
    [Date_now] is the time value in milliseconds; [random_draws n] is what the
    [n]-th call of [Math.random()] returns. *)
Record Runtime : Type := {
  Date_now : Z;
  random_draws : nat -> Q
}.

(** Computations that draw random numbers: the state is the count of draws made. *)
Definition Rand (A : Type) : Type := nat -> A * nat.

Definition rret {A : Type} (a : A) : Rand A := fun n => (a, n).

Definition rbind {A B : Type} (m : Rand A) (k : A -> Rand B) : Rand B :=
  fun n => let (a, n') := m n in k a n'.

Definition Math_random (rt : Runtime) : Rand Q :=
  fun n => (random_draws rt n, S n).

Notation "x <~ c ;; k" := (rbind c (fun x => k))
  (at level 61, c at next level, right associativity).

(** The locals of one loop iteration, before they are rounded into a point. *)
Record Sample : Type := {
  windSpeed : Q;
  powerOutput : Q;
  temperature_ : Q;
  vibration_ : Q;
  status_ : Status
}.

Section TurbineData.

(** [Math.sin], [Date.prototype.toISOString] on a time value and the
    number-to-string conversion of template literals are the host's. *)
Variable Math_sin : Q -> Q.
Variable toISOString : Z -> string.
Variable Number_toString : Q -> string.

(** Lines 26-47 of one iteration. *)
Definition simulate (rt : Runtime) (i : nat) : Rand Sample :=
  let i_ := inject_Z (Z.of_nat i) in
  let baseWindSpeed := 8 + Math_sin (i_ / 8) * 3 in
  r1 <~ Math_random rt ;;
  let windSpeed := Math_max 3 (Math_min 15 (baseWindSpeed + (r1 - 0.5) * 2)) in
  let degradationFactor := if lt_int i 12 then 0.85 else 1.0 in
  let idealPower := Math_pow3 (windSpeed / 12) * 2000 * degradationFactor in
  r2 <~ Math_random rt ;;
  let powerOutput := Math_max 0 (Math_min 2000 (idealPower + (r2 - 0.5) * 100)) in
  let baseTemp := 35 + (powerOutput / 2000) * 30 in
  let temperature := if lt_int i 15 then baseTemp + 15 else baseTemp in
  let baseVibration := 1.0 + (powerOutput / 2000) * 2 in
  let vibration := if lt_int i 15 then baseVibration + 2.5 else baseVibration in
  let status := if gt temperature 70 || gt vibration 4.0 then warning_status else operating in
  rret {| windSpeed := windSpeed; powerOutput := powerOutput;
          temperature_ := temperature; vibration_ := vibration; status_ := status |}.

(** Lines 24 and 49-56: the object pushed for iteration [i]. *)
Definition dataPoint (rt : Runtime) (i : nat) (s : Sample) : TurbineDataPoint :=
  let timestamp := (Date_now rt - Z.of_nat i * 60 * 60 * 1000)%Z in
  {| timestamp := toISOString timestamp;
     wind_speed := Math_round (windSpeed s * 10) / 10;
     power_output := Math_round (powerOutput s);
     temperature := Math_round (temperature_ s);
     vibration := Math_round (vibration_ s * 10) / 10;
     status := status_ s |}.

(** The loop [for (let i = ...; i >= 0; i--)], entered with counter [i]. *)
Fixpoint generate_from (rt : Runtime) (i : nat) (data : list TurbineDataPoint)
  : Rand (list TurbineDataPoint) :=
  s <~ simulate rt i ;;
  let data := data ++ [dataPoint rt i s] in
  match i with
  | O => rret data
  | S j => generate_from rt j data
  end.

Definition generateTurbineData (rt : Runtime) : list TurbineDataPoint :=
  fst (generate_from rt 47 [] 0%nat).

(** The samples behind the points of a call, in the order they are pushed. *)
Fixpoint samples_from (rt : Runtime) (i : nat) : Rand (list Sample) :=
  s <~ simulate rt i ;;
  match i with
  | O => rret [s]
  | S j => rest <~ samples_from rt j ;; rret (s :: rest)
  end.

(** ** [analyzeAlerts] *)

Definition analyzeAlerts (data : list TurbineDataPoint) : completion (list TurbineAlert) :=
  let alerts : list TurbineAlert := [] in
  let latestData := index data (len data - 1) in
  latest_temperature <- member latestData temperature ;;
  alerts <-
    (if gt latest_temperature 70 then
       t <- member latestData temperature ;;
       ts <- member latestData timestamp ;;
       Return (alerts ++ [ {| id := "temp-1";
                             type := high_temp;
                             severity := if gt t 75 then critical else warning;
                             message := "High temperature detected: " ++ Number_toString t
                                          ++ "°C (threshold: 70°C)";
                             alert_timestamp := ts |} ])
     else Return alerts) ;;
  latest_vibration <- member latestData vibration ;;
  alerts <-
    (if gt latest_vibration 4.0 then
       v <- member latestData vibration ;;
       ts <- member latestData timestamp ;;
       Return (alerts ++ [ {| id := "vib-1";
                             type := high_vibration;
                             severity := if gt v 4.5 then critical else warning;
                             message := "Elevated vibration levels: " ++ Number_toString v
                                          ++ " (threshold: 4.0)";
                             alert_timestamp := ts |} ])
     else Return alerts) ;;
  let recentData := slice data (-12) None in
  let avgRecentPower := js_div (reduce_sum power_output recentData) (inject_Z (len recentData)) in
  let olderData := slice data (-24) (Some (-12)%Z) in
  let avgOlderPower := js_div (reduce_sum power_output olderData) (inject_Z (len olderData)) in
  let drop := num_div (num_sub avgOlderPower avgRecentPower) avgOlderPower in
  if num_gt avgOlderPower (Finite 0) && num_gt drop (Finite 0.15) then
    let degradation := num_round (num_scale drop 100) in
    ts <- member latestData timestamp ;;
    Return (alerts ++ [ {| id := "perf-1";
                          type := low_performance;
                          severity := warning;
                          message := "Power output declining: "
                                       ++ match degradation with
                                          | Finite d => Number_toString d
                                          | Infinity false => "Infinity"
                                          | Infinity true => "-Infinity"
                                          | NaN => "NaN"
                                          end
                                       ++ "% drop over past 12 hours";
                          alert_timestamp := ts |} ])
  else Return alerts.

(** ** [calculateMetrics] *)

Record Metrics : Type := {
  avgPower : number;
  avgWindSpeed : number;
  currentStatus : Status;
  currentPower : Q;
  currentWindSpeed : Q;
  currentTemp : Q;
  currentVibration : Q
}.

Definition calculateMetrics (data : list TurbineDataPoint) : completion Metrics :=
  let latestData := index data (len data - 1) in
  let avgPower := num_round (js_div (reduce_sum power_output data) (inject_Z (len data))) in
  let avgWindSpeed :=
    num_div (num_round (num_scale (js_div (reduce_sum wind_speed data) (inject_Z (len data))) 10))
            (Finite 10) in
  currentStatus <- member latestData status ;;
  currentPower <- member latestData power_output ;;
  currentWindSpeed <- member latestData wind_speed ;;
  currentTemp <- member latestData temperature ;;
  currentVibration <- member latestData vibration ;;
  Return {| avgPower := avgPower; avgWindSpeed := avgWindSpeed;
            currentStatus := currentStatus; currentPower := currentPower;
            currentWindSpeed := currentWindSpeed; currentTemp := currentTemp;
            currentVibration := currentVibration |}.

End TurbineData.

(** ** A concrete host, for evaluating the library on examples *)

(** The sine as the partial sum of its series up to the term of degree
    [2 * terms + 1], in Horner form: on the arguments [i / 8], [0 <= i <= 47],
    that the generator passes, 24 terms agree with the sine to well below the
    precision of a double. *)
Fixpoint sin_tail (terms : nat) (k : Z) (x2 : Q) : Q :=
  match terms with
  | O => 1
  | S n => Qred (1 - x2 / inject_Z ((2 * k) * (2 * k + 1)) * sin_tail n (k + 1) x2)
  end.

Definition sin_series (x : Q) : Q := Qred (x * sin_tail 24 1 (x * x)).

(** Decimal digits of a natural number, most significant first, in [width] places. *)
Fixpoint digits (width : nat) (n : Z) : string :=
  match width with
  | O => EmptyString
  | S w => digits w (n / 10) ++ String (ascii_of_nat (48 + Z.to_nat (n mod 10))) EmptyString
  end.

(** The proleptic Gregorian date of a count of days since 1970-01-01. *)
Definition civil_from_days (days : Z) : Z * Z * Z :=
  let z := (days + 719468)%Z in
  let era := (z / 146097)%Z in
  let doe := (z - era * 146097)%Z in
  let yoe := ((doe - doe / 1460 + doe / 36524 - doe / 146096) / 365)%Z in
  let doy := (doe - (365 * yoe + yoe / 4 - yoe / 100))%Z in
  let mp := ((5 * doy + 2) / 153)%Z in
  let d := (doy - (153 * mp + 2) / 5 + 1)%Z in
  let m := if (mp <? 10)%Z then (mp + 3)%Z else (mp - 9)%Z in
  let y := (yoe + era * 400 + (if (m <=? 2)%Z then 1 else 0))%Z in
  (y, m, d).

(** [new Date(t).toISOString()] for a time value [t] in the range of dates. *)
Definition iso_string (t : Z) : string :=
  let ms_per_day := 86400000%Z in
  let '(y, m, d) := civil_from_days (t / ms_per_day) in
  let r := (t mod ms_per_day)%Z in
  let year := if ((0 <=? y) && (y <=? 9999))%Z then digits 4 y
              else ((if (y <? 0)%Z then "-" else "+") ++ digits 6 (Z.abs y))%string in
  (year ++ "-" ++ digits 2 m ++ "-" ++ digits 2 d ++ "T"
   ++ digits 2 (r / 3600000) ++ ":" ++ digits 2 (r / 60000 mod 60) ++ ":"
   ++ digits 2 (r / 1000 mod 60) ++ "." ++ digits 3 (r mod 1000) ++ "Z")%string.

(* ================================================================== *)
(** * Part II.  The retrieval pipeline: chunker and retriever          *)
(* ================================================================== *)

Module Rag.

(** ** Data model (section 3 of the specification) *)

Record Document : Type := {
  id : nat;
  source_path : string;
  raw_text : string
}.

(** A chunk keeps its document's key and the path it is cited by.  The
    specification names [chunk_id] without fixing its form; the pair of the
    document key and the ordinal identifies a chunk. *)
Record Chunk : Type := {
  chunk_id : nat * nat;
  document_id : nat;
  ordinal : nat;
  text : string;
  char_start : nat;
  char_end : nat;
  cited_path : string
}.

Record RetrievalResult : Type := {
  result_id : nat * nat;
  score : Q;
  result_text : string;
  result_path : string
}.

Inductive Error : Type :=
| ConfigError.

(** What a call yields: a value, a failure, or no answer within the fuel given. *)
Inductive outcome (A : Type) : Type :=
| Ok (a : A)
| Fail (e : Error)
| Diverge.
Arguments Ok {A} a.
Arguments Fail {A} e.
Arguments Diverge {A}.

(** ** Chunker (section 4.1) *)

(** Modelled from the spec: the input condition of [chunk], "chunk_size > 0,
    0 <= overlap < chunk_size"; the chunker's source
    ([rag/document_chunker.py]) is not among the sources. *)
Definition valid_params (chunk_size overlap : Z) : bool :=
  ((0 <? chunk_size) && (0 <=? overlap) && (overlap <? chunk_size))%Z.

(** Modelled from the spec: the chunk emitted at [offset], "spanning
    [offset, offset+chunk_size) clipped to document length", with the
    emission index as its ordinal; [rag/document_chunker.py] is missing. *)
Definition window (d : Document) (size offset ord : nat) : Chunk :=
  let stop := Nat.min (offset + size) (String.length (raw_text d)) in
  {| chunk_id := (id d, ord);
     document_id := id d;
     ordinal := ord;
     text := substring offset (stop - offset) (raw_text d);
     char_start := offset;
     char_end := stop;
     cited_path := source_path d |}.

(** Modelled from the spec: the chunker's loop of section 4.1, "starting at
    offset 0, emit a chunk spanning [offset, offset+chunk_size) clipped to
    document length; advance offset by chunk_size - overlap; repeat until
    offset >= document length" ([rag/document_chunker.py] is missing).  The
    sentence is read together with the rest of the specification, which it
    must not contradict: "a document shorter than chunk_size yields exactly
    one chunk equal to the whole document" (section 4.1, Scenario 3) and
    "except for the final chunk of a document, which may be shorter"
    (section 3).  So the loop ends with the first chunk that reaches the end
    of the document; a further window would lie wholly inside that chunk.
    [fuel] bounds the number of iterations; [None] is a run that needs more. *)
Fixpoint emit (fuel : nat) (d : Document) (size step offset ord : nat) : option (list Chunk) :=
  match fuel with
  | O => None
  | S fuel' =>
      let c := window d size offset ord in
      if (String.length (raw_text d) <=? offset + size)%nat then Some [c]
      else option_map (cons c) (emit fuel' d size step (offset + step)%nat (S ord))
  end.

(** Modelled from the spec: [chunk(document, chunk_size, overlap)], which
    "fails with ConfigError" on invalid parameters and otherwise runs the loop
    from offset 0 ([rag/document_chunker.py] is missing).  The loop gets one
    iteration per character and one more. *)
Definition chunk (d : Document) (chunk_size overlap : Z) : outcome (list Chunk) :=
  if valid_params chunk_size overlap then
    match emit (S (String.length (raw_text d))) d
               (Z.to_nat chunk_size) (Z.to_nat (chunk_size - overlap)) 0 0 with
    | Some cs => Ok cs
    | None => Diverge
    end
  else Fail ConfigError.




(** The shape of a run of the loop entered at [offset] with ordinal [ord]:
    one window per step, the last being the first that reaches the end of
    the document. *)
Inductive tiling (d : Document) (size step : nat) : nat -> nat -> list Chunk -> Prop :=
| tiling_last (offset ord : nat) :
    (String.length (raw_text d) <= offset + size)%nat ->
    tiling d size step offset ord [window d size offset ord]
| tiling_more (offset ord : nat) (cs : list Chunk) :
    (offset + size < String.length (raw_text d))%nat ->
    tiling d size step (offset + step) (S ord) cs ->
    tiling d size step offset ord (window d size offset ord :: cs).

(** ** Retriever (section 4.3) *)

(** A chunk of the index with its similarity to the query. *)
Record Candidate : Type := {
  candidate_chunk : Chunk;
  similarity_to_query : Q
}.

(** The tie-breaking key of a candidate: the [(document_id, ordinal)] of its
    chunk. *)
Definition tie_key (c : Candidate) : nat * nat :=
  (document_id (candidate_chunk c), ordinal (candidate_chunk c)).

(** Ascending order on the tie-breaking key [(document_id, ordinal)]. *)
Definition key_leb (a b : nat * nat) : bool :=
  ((fst a <? fst b) || ((fst a =? fst b) && (snd a <=? snd b)))%nat.

(** Modelled from the spec: the ranking order, "descending score; ties broken
    by ascending (document_id, ordinal)"; the retriever's source
    ([rag/retriever.py]) is not among the sources. *)
Definition ranks_before (a b : Candidate) : bool :=
  gt (similarity_to_query a) (similarity_to_query b)
  || (Qeq_bool (similarity_to_query a) (similarity_to_query b)
      && key_leb (tie_key a) (tie_key b)).

(** The same order as a relation: [a] may stand before [b]. *)
Definition key_le (a b : nat * nat) : Prop :=
  (fst a < fst b \/ (fst a = fst b /\ snd a <= snd b))%nat.

Definition precedes (a b : Candidate) : Prop :=
  similarity_to_query b < similarity_to_query a \/
  (similarity_to_query a == similarity_to_query b /\ key_le (tie_key a) (tie_key b)).

Fixpoint insert_ranked (c : Candidate) (l : list Candidate) : list Candidate :=
  match l with
  | [] => [c]
  | x :: rest => if ranks_before c x then c :: l else x :: insert_ranked c rest
  end.

Definition rank (l : list Candidate) : list Candidate :=
  fold_right insert_ranked [] l.

(** A candidate clears the floor unless its score is below it. *)
Definition clears (min_score : Q) (c : Candidate) : bool :=
  Qle_bool min_score (similarity_to_query c).

(** Modelled from the spec: the result built for a candidate,
    "{ chunk_id, score, text, source_path }" ([rag/retriever.py] is missing). *)
Definition result_of (c : Candidate) : RetrievalResult :=
  {| result_id := chunk_id (candidate_chunk c);
     score := similarity_to_query c;
     result_text := text (candidate_chunk c);
     result_path := cited_path (candidate_chunk c) |}.

Section Retriever.

(** The index handle: the chunks it was built over and the similarity of a
    query to each of them (the cosine of their unit-length weight vectors under
    the fixed vocabulary, section 4.2), which the retriever only compares. *)
Variable indexed : list Chunk.
Variable similarity : string -> Chunk -> Q.

Definition score_chunk (query_text : string) (c : Chunk) : Candidate :=
  {| candidate_chunk := c; similarity_to_query := similarity query_text c |}.

(** Modelled from the spec: the candidates [retrieve] keeps, in rank order:
    all chunks ranked against the query, the [top_k] first of them, less
    those with "score < min_score ... even if fewer than top_k remain"
    ([rag/retriever.py] is missing). *)
Definition ranked (query_text : string) (top_k : nat) (min_score : Q) : list Candidate :=
  filter (clears min_score) (firstn top_k (rank (map (score_chunk query_text) indexed))).

(** Modelled from the spec: [retrieve(query_text, top_k, min_score)], the
    results of the candidates kept ([rag/retriever.py] is missing). *)
Definition retrieve (query_text : string) (top_k : nat) (min_score : Q) : list RetrievalResult :=
  map result_of (ranked query_text top_k min_score).

End Retriever.

End Rag.

(* ================================================================== *)
(** * Part II'.  Callers of the telemetry library                      *)
(* ================================================================== *)

(** The arithmetic mean of the power outputs of a window, as both
    [analyzeAlerts] and the chat fallback compute it: [0 / 0] on an empty
    window. *)
Definition mean_power (window : list TurbineDataPoint) : number :=
  js_div (reduce_sum power_output window) (inject_Z (len window)).

(** The point [generateTurbineData] pushes for the hour [j] hours before the
    clock reading: the loop reaches counter [j] after [2 * (47 - j)] draws. *)
Definition generated_point (Math_sin : Q -> Q) (toISOString : Z -> string)
                           (rt : Runtime) (j : nat) : TurbineDataPoint :=
  dataPoint toISOString rt j (fst (simulate Math_sin rt j (2 * (47 - j))%nat)).

(** The counters of the loop in the order it runs through them: 47, ..., 0. *)
Definition hours_ago : list nat := rev (seq 0 48).

(** The condition of line 92 of [analyzeAlerts] on the two windows of [data]. *)
Definition power_declining (data : list TurbineDataPoint) : bool :=
  let older := mean_power (slice data (-24) (Some (-12)%Z)) in
  let recent := mean_power (slice data (-12) None) in
  num_gt older (Finite 0) && num_gt (num_div (num_sub older recent) older) (Finite 0.15).

(** The alerts of lines 66-74 and of lines 76-84 of [analyzeAlerts] for a
    latest point. *)
Definition temperature_alerts (Number_toString : Q -> string) (latest : TurbineDataPoint)
  : list TurbineAlert :=
  if gt (temperature latest) 70 then
    [ {| id := "temp-1"; type := high_temp;
         severity := if gt (temperature latest) 75 then critical else warning;
         message := "High temperature detected: " ++ Number_toString (temperature latest)
                      ++ "°C (threshold: 70°C)";
         alert_timestamp := timestamp latest |} ]
  else [].

Definition vibration_alerts (Number_toString : Q -> string) (latest : TurbineDataPoint)
  : list TurbineAlert :=
  if gt (vibration latest) 4.0 then
    [ {| id := "vib-1"; type := high_vibration;
         severity := if gt (vibration latest) 4.5 then critical else warning;
         message := "Elevated vibration levels: " ++ Number_toString (vibration latest)
                      ++ " (threshold: 4.0)";
         alert_timestamp := timestamp latest |} ]
  else [].

(** ** [pages/Dashboard.tsx] *)

(** [Math.max(...xs)]: minus infinity when there is no argument. *)
Definition Math_max_spread (xs : list Q) : number :=
  match xs with
  | [] => Infinity true
  | x :: rest => Finite (fold_left Math_max rest x)
  end.

(** The numbers the four metric cards are given (lines 62, 69, 76 and 83);
    the peak and the efficiency are the values their [toFixed] calls format. *)
Record DashboardCards : Type := {
  card_avgPower : number;
  card_avgWindSpeed : number;
  card_peakPower : number;
  card_efficiency : number
}.

(** What the page renders: the loading placeholder, or the cards, the chart
    data and the alert section. *)
Inductive DashboardView : Type :=
| LoadingView
| DashboardPage (cards : DashboardCards) (chart : list TurbineDataPoint)
                (alerts : list TurbineAlert).

Section DashboardPage.

Variable Number_toString : Q -> string.

(** Lines 20-29 and the values of lines 60-85: the render function of the
    page on the state [turbineData]. *)
Definition Dashboard (turbineData : list TurbineDataPoint) : completion DashboardView :=
  if (len turbineData =? 0)%Z then Return LoadingView
  else
    alerts <- analyzeAlerts Number_toString turbineData ;;
    metrics <- calculateMetrics turbineData ;;
    Return (DashboardPage
              {| card_avgPower := avgPower metrics;
                 card_avgWindSpeed := avgWindSpeed metrics;
                 card_peakPower := Math_max_spread (map power_output turbineData);
                 card_efficiency :=
                   num_scale (num_div (avgPower metrics) (Finite 3000)) 100 |}
              turbineData alerts).

End DashboardPage.

(** ** The chat panel (the second component of [components/AlertSection.tsx]) *)

(** [s.includes(search)]: [search] occurs in [s] as a contiguous substring. *)
Fixpoint includes (s search : string) : bool :=
  prefix search s ||
  match s with
  | EmptyString => false
  | String _ rest => includes rest search
  end.

(** [parts.join(separator)]. *)
Fixpoint join (separator : string) (parts : list string) : string :=
  match parts with
  | [] => EmptyString
  | [p] => p
  | p :: rest => (p ++ separator ++ join separator rest)%string
  end.

(** The line feed of the template literals. *)
Definition nl : string := String (ascii_of_nat 10) EmptyString.

(** The string a status is at run time. *)
Definition status_text (s : Status) : string :=
  match s with
  | operating => "operating"
  | warning_status => "warning"
  | offline => "offline"
  end.

Inductive Role : Type :=
| user
| assistant.

Record Message : Type := {
  role : Role;
  content : string
}.

(** The body [sendMessage] posts to the backend (lines 119-123). *)
Record ChatRequest : Type := {
  request_question : string;
  request_turbineData : list TurbineDataPoint;
  request_messages : list Message
}.

Definition requestBody (question : string) (turbineData : list TurbineDataPoint)
                       (messages : list Message) : ChatRequest :=
  {| request_question := question;
     request_turbineData := slice turbineData (-24) None;
     request_messages := slice messages (-6) None |}.

(** The two constant answers of the fallback. *)
Definition power_curve_answer : string :=
  "The power curve shows the relationship between wind speed and power output. Power increases cubically with wind speed until rated capacity (2000kW). The turbine operates most efficiently at wind speeds between 8-12 m/s.".

Definition help_answer : string :=
  "I can help you analyze turbine performance, identify issues, and explain operational patterns. Try asking about the current status, any issues, or performance summary.".

Definition no_issues_answer : string :=
  "No issues detected. System operating normally.".

Section ChatFallback.

(** [String.prototype.toLowerCase] and [toUpperCase] and the conversion of a
    number to a string are the host's. *)
Variable toLowerCase : string -> string.
Variable toUpperCase : string -> string.
Variable Number_toString : Q -> string.

(** A [number] inside a template literal. *)
Definition number_text (n : number) : string :=
  match n with
  | Finite q => Number_toString q
  | Infinity false => "Infinity"
  | Infinity true => "-Infinity"
  | NaN => "NaN"
  end.

(** Lines 221-249. *)
Definition generateFallbackResponse (question : string) (data : list TurbineDataPoint)
  : completion string :=
  let latest := index data (len data - 1) in
  let recent := slice data (-12) None in
  let avgPower := js_div (reduce_sum power_output recent) (inject_Z (len recent)) in
  let lowerQuestion := toLowerCase question in
  if includes lowerQuestion "status" || includes lowerQuestion "current" then
    st <- member latest status ;;
    p <- member latest power_output ;;
    w <- member latest wind_speed ;;
    t <- member latest temperature ;;
    v <- member latest vibration ;;
    Return ("Current turbine status: " ++ toUpperCase (status_text st) ++ nl ++ nl
            ++ "Power: " ++ Number_toString p ++ "kW" ++ nl
            ++ "Wind Speed: " ++ Number_toString w ++ "m/s" ++ nl
            ++ "Temperature: " ++ Number_toString t ++ "°C" ++ nl
            ++ "Vibration: " ++ Number_toString v)%string
  else if includes lowerQuestion "issue" || includes lowerQuestion "problem"
          || includes lowerQuestion "wrong" then
    let issues : list string := [] in
    latest_temperature <- member latest temperature ;;
    issues <-
      (if gt latest_temperature 70 then
         t <- member latest temperature ;;
         Return (issues ++ [("High temperature (" ++ Number_toString t ++ "°C)")%string])
       else Return issues) ;;
    latest_vibration <- member latest vibration ;;
    issues <-
      (if gt latest_vibration 4.0 then
         v <- member latest vibration ;;
         Return (issues ++ [("Elevated vibration (" ++ Number_toString v ++ ")")%string])
       else Return issues) ;;
    if (len issues =? 0)%Z then Return no_issues_answer
    else Return ("Issues detected:" ++ nl ++ join nl issues ++ nl ++ nl
                 ++ "Recommend inspection within 48 hours.")%string
  else if includes lowerQuestion "summary" || includes lowerQuestion "performance" then
    let rounded := number_text (num_round avgPower) in
    st <- member latest status ;;
    t <- member latest temperature ;;
    v <- member latest vibration ;;
    Return ("Performance Summary (Last 12 hours):" ++ nl ++ nl
            ++ "Average Power: " ++ rounded ++ "kW" ++ nl
            ++ "Current Status: " ++ status_text st ++ nl
            ++ "Temperature: " ++ Number_toString t ++ "°C" ++ nl
            ++ "Vibration: " ++ Number_toString v)%string
  else if includes lowerQuestion "power curve" || includes lowerQuestion "explain" then
    Return power_curve_answer
  else Return help_answer.

(** The question makes the fallback read the latest point. *)
Definition reads_latest (question : string) : bool :=
  let q := toLowerCase question in
  includes q "status" || includes q "current" || includes q "issue"
  || includes q "problem" || includes q "wrong" || includes q "summary"
  || includes q "performance".

End ChatFallback.

(** ** [components/AnimatedBackground.tsx] *)

Module Background.

Record Orb : Type := {
  id : nat;
  x : Q;
  y : Q;
  size : Q;
  duration : Q;
  delay : Q;
  opacity : Q
}.

(** Lines 20-28: the object pushed for counter [i], its six draws made in
    the order of the properties. *)
Definition newOrb (rt : Runtime) (i : nat) : Rand Orb :=
  rx <~ Math_random rt ;;
  ry <~ Math_random rt ;;
  rs <~ Math_random rt ;;
  rd <~ Math_random rt ;;
  rl <~ Math_random rt ;;
  ro <~ Math_random rt ;;
  rret {| id := i;
          x := rx * 100;
          y := ry * 100;
          size := 200 + rs * 300;
          duration := 20 + rd * 15;
          delay := rl * -20;
          opacity := 0.03 + ro * 0.05 |}.

(** The loop [for (let i = ...; i < 6; i++)] entered with counter [i], with
    [remaining = 6 - i] iterations to go. *)
Fixpoint generate_from (rt : Runtime) (remaining i : nat) (newOrbs : list Orb)
  : Rand (list Orb) :=
  match remaining with
  | O => rret newOrbs
  | S r => o <~ newOrb rt i ;; generate_from rt r (S i) (newOrbs ++ [o])
  end.

Definition generateOrbs (rt : Runtime) : list Orb :=
  fst (generate_from rt 6 0 [] 0%nat).

(** Every draw of the platform is a result [Math.random()] can give. *)
Definition unit_draws (rt : Runtime) : Prop :=
  forall n, 0 <= random_draws rt n < 1.

(** The ranges of the position, size, duration and delay of lines 22-26,
    ends included. *)
Definition in_range (o : Orb) : Prop :=
  0 <= x o <= 100 /\ 0 <= y o <= 100 /\ 200 <= size o <= 500 /\
  20 <= duration o <= 35 /\ -20 <= delay o <= 0.

End Background.

(** ** A number printer and a data point for the examples *)

(** The decimal digits of a natural number, without leading zeros. *)
Fixpoint decimal (fuel : nat) (n : Z) : string :=
  match fuel with
  | O => EmptyString
  | S f => ((if (n <? 10)%Z then "" else decimal f (n / 10)) ++ digits 1 (n mod 10))%string
  end.

(** A number with at most one decimal, printed as JavaScript prints it:
    [73] as "73", [4.9] as "4.9". *)
Definition show_tenths (q : Q) : string :=
  let t := Qfloor (Qabs q * 10 + (1 # 2)) in
  let whole := (t / 10)%Z in
  let tenth := (t mod 10)%Z in
  ((if Qle_bool 0 q then "" else "-")
   ++ decimal (S (Z.to_nat (Z.log2 whole))) whole
   ++ (if (tenth =? 0)%Z then "" else "." ++ digits 1 tenth))%string.

(** [toLowerCase] on text whose letters are ASCII. *)
Definition lower_letter (c : ascii) : ascii :=
  let n := nat_of_ascii c in
  if ((65 <=? n) && (n <=? 90))%nat then ascii_of_nat (n + 32) else c.

Fixpoint lower_ascii (s : string) : string :=
  match s with
  | EmptyString => EmptyString
  | String c rest => String (lower_letter c) (lower_ascii rest)
  end.

(** The latest point of a turbine running warm: no threshold is crossed. *)
Definition warm_point : TurbineDataPoint :=
  {| timestamp := "2026-11-01T23:00:00.000Z";
     wind_speed := 8;
     power_output := 504;
     temperature := 58;
     vibration := 4;
     status := warning_status |}.

(** ** Inputs used by the examples *)

(** Two platforms reading the same clock, one whose generator always returns
    [0] and one whose generator always returns [1/2]; and a third that reads
    the clock one hour later than the first. *)
Definition calm : Runtime := {| Date_now := 1793574000123; random_draws := fun _ => 0 |}.
Definition gusty : Runtime := {| Date_now := 1793574000123; random_draws := fun _ => 1 # 2 |}.
Definition later : Runtime := {| Date_now := 1793577600123; random_draws := fun _ => 0 |}.

(** A platform that agrees with [calm] on the clock and on the first 96
    draws, and differs afterwards. *)
Definition calm_then_gusty : Runtime :=
  {| Date_now := 1793574000123;
     random_draws := fun n => if (n <? 96)%nat then 0 else 1 # 2 |}.

(** A four-character manual, an index over the two chunks it gives with
    [chunk_size = 3] and [overlap = 1], and a similarity that is 1 on the chunk
    whose text is the query and 1/4 on every other chunk. *)
Definition abcd : Rag.Document :=
  {| Rag.id := 1; Rag.source_path := "manual.txt"; Rag.raw_text := "abcd" |}.

Definition abcd_chunks : list Rag.Chunk :=
  [Rag.window abcd 3 0 0; Rag.window abcd 3 2 1].

Definition exact_match (query_text : string) (c : Rag.Chunk) : Q :=
  if String.eqb query_text (Rag.text c) then 1 else 1 # 4.


(** Two sequences of points that agree field by field, numbers compared as
    numbers. *)
Definition same_point (p q : TurbineDataPoint) : Prop :=
  timestamp p = timestamp q /\ wind_speed p == wind_speed q /\
  power_output p == power_output q /\ temperature p == temperature q /\
  vibration p == vibration q /\ status p = status q.

Definition same_points (a b : list TurbineDataPoint) : Prop := Forall2 same_point a b.

(** What the generator guarantees of a sample and of the point made from it. *)
Definition sample_in_range (s : Sample) : Prop :=
  3 <= windSpeed s <= 15 /\ 0 <= powerOutput s <= 2000 /\
  (status_ s = operating \/ status_ s = warning_status).

Definition point_in_range (p : TurbineDataPoint) : Prop :=
  3 <= wind_speed p <= 15 /\ 0 <= power_output p <= 2000 /\
  (status p = operating \/ status p = warning_status).

(* ================================================================== *)
(** * Part III.  Properties of [src/lib/turbineData.ts]                 *)
(* ================================================================== *)

(** ** Comparisons and clamping *)

Lemma gt_true_iff (a b : Q) : gt a b = true <-> b < a.
Proof.
  unfold gt. rewrite negb_true_iff. split; intro H.
  - apply Qnot_le_lt. intro Hle. apply Qle_bool_iff in Hle. congruence.
  - destruct (Qle_bool a b) eqn:E; [|reflexivity].
    apply Qle_bool_iff in E. exfalso. apply (Qlt_not_le _ _ H E).
Qed.

Lemma gt_false_iff (a b : Q) : gt a b = false <-> a <= b.
Proof.
  unfold gt. rewrite negb_false_iff. apply Qle_bool_iff.
Qed.

Lemma Math_max_bounds (lo hi x : Q) :
  lo <= hi -> x <= hi -> lo <= Math_max lo x <= hi.
Proof.
  intros Hlh Hx. unfold Math_max.
  destruct (Qle_bool lo x) eqn:E.
  - apply Qle_bool_iff in E. split; assumption.
  - split; [apply Qle_refl | assumption].
Qed.

Lemma Math_min_upper (hi x : Q) : Math_min hi x <= hi.
Proof.
  unfold Math_min. destruct (Qle_bool hi x) eqn:E.
  - apply Qle_refl.
  - apply Qlt_le_weak, Qnot_le_lt. intro H. apply Qle_bool_iff in H. congruence.
Qed.

Lemma clamp_bounds (lo hi x : Q) :
  lo <= hi -> lo <= Math_max lo (Math_min hi x) <= hi.
Proof.
  intro H. apply Math_max_bounds; [assumption | apply Math_min_upper].
Qed.

(** [Math.round] keeps a number between two integers it lies between. *)
Lemma Math_round_bounds (a b : Z) (x : Q) :
  inject_Z a <= x <= inject_Z b -> inject_Z a <= Math_round x <= inject_Z b.
Proof.
  intros [Ha Hb]. unfold Math_round. rewrite <- !Zle_Qle. split.
  - rewrite <- (Qfloor_Z a). apply Qfloor_resp_le. lra.
  - assert (Hlt : x + (1 # 2) < inject_Z (b + 1)).
    { rewrite inject_Z_plus. change (inject_Z 1) with 1. lra. }
    assert (Hf : inject_Z (Qfloor (x + (1 # 2))) < inject_Z (b + 1)).
    { eapply Qle_lt_trans; [apply Qfloor_le | exact Hlt]. }
    rewrite <- Zlt_Qlt in Hf. lia.
Qed.

(** ** The generator *)

Section Generator.

Variable Math_sin : Q -> Q.
Variable toISOString : Z -> string.

(** One iteration makes exactly two draws. *)
Lemma simulate_draws (rt : Runtime) (i n : nat) :
  simulate Math_sin rt i n = (fst (simulate Math_sin rt i n), S (S n)).
Proof. reflexivity. Qed.

(** An iteration reads the platform through its two draws only. *)
Lemma simulate_ext (rt1 rt2 : Runtime) (i n : nat) :
  random_draws rt1 n = random_draws rt2 n ->
  random_draws rt1 (S n) = random_draws rt2 (S n) ->
  simulate Math_sin rt1 i n = simulate Math_sin rt2 i n.
Proof.
  intros H1 H2. unfold simulate, rbind, Math_random, rret.
  rewrite H1, H2. reflexivity.
Qed.

Lemma simulate_in_range (rt : Runtime) (i n : nat) :
  sample_in_range (fst (simulate Math_sin rt i n)).
Proof.
  unfold sample_in_range.
  cbv beta iota zeta delta [simulate rbind Math_random rret fst windSpeed powerOutput status_].
  repeat split; try (apply clamp_bounds; lra).
  destruct (gt _ 70 || gt _ 4.0); [right | left]; reflexivity.
Qed.

Lemma dataPoint_in_range (rt : Runtime) (i : nat) (s : Sample) :
  sample_in_range s -> point_in_range (dataPoint toISOString rt i s).
Proof.
  intros [[Hw1 Hw2] [[Hp1 Hp2] Hs]]. unfold point_in_range, dataPoint; cbn.
  assert (Hw : inject_Z 30 <= Math_round (windSpeed s * 10) <= inject_Z 150).
  { apply Math_round_bounds. change (inject_Z 30) with 30. change (inject_Z 150) with 150. lra. }
  assert (Hp : inject_Z 0 <= Math_round (powerOutput s) <= inject_Z 2000).
  { apply Math_round_bounds. change (inject_Z 0) with 0. change (inject_Z 2000) with 2000. lra. }
  change (inject_Z 30) with 30 in Hw. change (inject_Z 150) with 150 in Hw.
  change (inject_Z 0) with 0 in Hp. change (inject_Z 2000) with 2000 in Hp.
  repeat split; try lra; try assumption.
  - apply Qle_shift_div_l; [reflexivity | lra].
  - apply Qle_shift_div_r; [reflexivity | lra].
Qed.

(** The loop entered at [i] pushes one point per counter value [i, ..., 0],
    each made from the sample of its iteration, and makes [2 * (i + 1)] draws. *)
Lemma generate_from_samples (rt : Runtime) (i : nat) :
  forall (data : list TurbineDataPoint) (n : nat),
  exists (ss : list Sample) (pts : list TurbineDataPoint),
    samples_from Math_sin rt i n = (ss, (n + 2 * S i)%nat) /\
    generate_from Math_sin toISOString rt i data n = (data ++ pts, (n + 2 * S i)%nat) /\
    List.length pts = S i /\
    Forall sample_in_range ss /\
    Forall2 (fun s p => exists j, (j <= i)%nat /\ p = dataPoint toISOString rt j s) ss pts.
Proof.
  induction i as [|j IH]; intros data n.
  - exists [fst (simulate Math_sin rt 0 n)], [dataPoint toISOString rt 0 (fst (simulate Math_sin rt 0 n))].
    cbn [samples_from generate_from]. unfold rbind.
    rewrite simulate_draws.
    replace (n + 2 * 1)%nat with (S (S n)) by lia.
    repeat split.
    + constructor; [apply simulate_in_range | constructor].
    + constructor; [|constructor]. exists 0%nat. split; [lia | reflexivity].
  - set (s := fst (simulate Math_sin rt (S j) n)).
    destruct (IH (data ++ [dataPoint toISOString rt (S j) s]) (S (S n)))
      as (ss & pts & Hs & Hg & Hlen & Hrange & Hrel).
    exists (s :: ss), (dataPoint toISOString rt (S j) s :: pts).
    replace (n + 2 * S (S j))%nat with (S (S n) + 2 * S j)%nat by lia.
    cbn [samples_from generate_from]. unfold rbind. rewrite simulate_draws. fold s.
    rewrite Hs, Hg, <- app_assoc.
    repeat split.
    + cbn. rewrite Hlen. reflexivity.
    + constructor; [apply simulate_in_range | assumption].
    + constructor.
      * exists (S j). split; [lia | reflexivity].
      * eapply Forall2_impl; [|exact Hrel].
        intros a b (k & Hk & ->). exists k. split; [lia | reflexivity].
Qed.

(** The loop depends on the platform through the clock and the draws it makes. *)
Lemma generate_from_ext (rt1 rt2 : Runtime) (i : nat) :
  forall (data : list TurbineDataPoint) (n : nat),
  Date_now rt1 = Date_now rt2 ->
  (forall k, (n <= k < n + 2 * S i)%nat -> random_draws rt1 k = random_draws rt2 k) ->
  generate_from Math_sin toISOString rt1 i data n = generate_from Math_sin toISOString rt2 i data n.
Proof.
  induction i as [|j IH]; intros data n Hclock Hdraws.
  - cbn [generate_from]. unfold rbind.
    rewrite (simulate_ext rt1 rt2 0 n) by (apply Hdraws; lia).
    unfold dataPoint. rewrite Hclock. reflexivity.
  - cbn [generate_from]. unfold rbind.
    rewrite (simulate_ext rt1 rt2 (S j) n) by (apply Hdraws; lia).
    rewrite simulate_draws.
    unfold dataPoint at 1 2. rewrite Hclock.
    apply IH; [assumption | intros k Hk; apply Hdraws; lia].
Qed.

End Generator.

(** C9.  Every call of [generateTurbineData] returns exactly 48 points.
    Every sample [simulate] computes, and so each of the 48 samples of the
    call ([samples_from], the loop's own samples in the order of its
    iterations), has a wind speed in [3, 15] before rounding and a power in
    [0, 2000]; each point of the result is the point [dataPoint] makes from
    the sample of its iteration, its rounded fields stay in the same ranges,
    and its status is 'operating' or 'warning', never 'offline'. *)
Theorem generateTurbineData_48_points_in_range
  (Math_sin : Q -> Q) (toISOString : Z -> string) (rt : Runtime) :
  List.length (generateTurbineData Math_sin toISOString rt) = 48%nat /\
  Forall point_in_range (generateTurbineData Math_sin toISOString rt) /\
  Forall (fun p => status p <> offline) (generateTurbineData Math_sin toISOString rt) /\
  (forall i n, sample_in_range (fst (simulate Math_sin rt i n))) /\
  List.length (fst (samples_from Math_sin rt 47 0%nat)) = 48%nat /\
  Forall sample_in_range (fst (samples_from Math_sin rt 47 0%nat)) /\
  Forall2 (fun s p => exists i, (i <= 47)%nat /\ p = dataPoint toISOString rt i s)
          (fst (samples_from Math_sin rt 47 0%nat))
          (generateTurbineData Math_sin toISOString rt).
Proof.
  unfold generateTurbineData.
  destruct (generate_from_samples Math_sin toISOString rt 47 [] 0)
    as (ss & pts & Hs & Hg & Hlen & Hrange & Hrel).
  rewrite Hg, Hs. cbn [fst app].
  assert (Hpts : Forall point_in_range pts).
  { clear Hg Hs Hlen. induction Hrel as [|s p ss' pts' (i & _ & ->) _ IH]; constructor.
    - apply dataPoint_in_range. inversion Hrange; assumption.
    - apply IH. inversion Hrange; assumption. }
  split; [exact Hlen|].
  split; [exact Hpts|].
  split.
  { eapply Forall_impl; [|exact Hpts].
    intros p (_ & _ & [Hst | Hst]); rewrite Hst; discriminate. }
  split; [intros i n; apply simulate_in_range|].
  split; [rewrite (Forall2_length Hrel); exact Hlen|].
  split; assumption.
Qed.

(** C1, as the code has it.  The generator reads the clock and draws from
    [Math.random]; its result is a function of the clock reading and of the 96
    draws it makes: two calls that read the same clock and get the same 96
    draws return identical sequences. *)
Theorem generateTurbineData_determined_by_clock_and_draws
  (Math_sin : Q -> Q) (toISOString : Z -> string) (rt1 rt2 : Runtime) :
  Date_now rt1 = Date_now rt2 ->
  (forall n, (n < 96)%nat -> random_draws rt1 n = random_draws rt2 n) ->
  generateTurbineData Math_sin toISOString rt1 = generateTurbineData Math_sin toISOString rt2.
Proof.
  intros Hclock Hdraws. unfold generateTurbineData. f_equal.
  apply generate_from_ext; [assumption | intros k Hk; apply Hdraws; lia].
Qed.

(** Two platforms that differ only after the 96th draw give the same data. *)
Lemma generateTurbineData_determined_witness :
  random_draws calm 96 <> random_draws calm_then_gusty 96 /\
  generateTurbineData sin_series iso_string calm
  = generateTurbineData sin_series iso_string calm_then_gusty.
Proof.
  split; [discriminate|].
  apply (generateTurbineData_determined_by_clock_and_draws sin_series iso_string
           calm calm_then_gusty).
  - reflexivity.
  - intros n Hn. unfold calm, calm_then_gusty; cbn [random_draws].
    destruct (Nat.ltb_spec n 96); [reflexivity | lia].
Defined.

(** Sequences that agree point by point agree on the first wind speed and
    on the first timestamp. *)
Lemma same_points_first_wind_speed (a b : list TurbineDataPoint) (x y : Q) :
  hd_error (map (fun p => Qred (wind_speed p)) a) = Some x ->
  hd_error (map (fun p => Qred (wind_speed p)) b) = Some y ->
  same_points a b -> x = y.
Proof.
  intros Hx Hy H. destruct H as [|p q ps qs (_ & Hw & _) _]; [discriminate|].
  cbn in Hx, Hy. injection Hx as <-. injection Hy as <-.
  apply Qred_complete. exact Hw.
Qed.

Lemma same_points_first_timestamp (a b : list TurbineDataPoint) (x y : string) :
  hd_error (map timestamp a) = Some x ->
  hd_error (map timestamp b) = Some y ->
  same_points a b -> x = y.
Proof.
  intros Hx Hy H. destruct H as [|p q ps qs (Ht & _) _]; [discriminate|].
  cbn in Hx, Hy. congruence.
Qed.

(** C1, as the claim states it, fails: with the clock fixed, a generator
    returning [0] and one returning [1/2] yield different data (the first wind
    speeds are 5.8 and 6.8); and with the draws fixed, a clock read one hour
    later yields different timestamps. *)
Lemma generateTurbineData_not_deterministic :
  ~ same_points (generateTurbineData sin_series iso_string calm)
                (generateTurbineData sin_series iso_string gusty) /\
  ~ same_points (generateTurbineData sin_series iso_string calm)
                (generateTurbineData sin_series iso_string later).
Proof.
  split; intro H.
  - apply (same_points_first_wind_speed _ _ (29 # 5) (34 # 5)) in H.
    + discriminate H.
    + vm_compute. reflexivity.
    + vm_compute. reflexivity.
  - apply (same_points_first_timestamp _ _ "2026-10-31T00:00:00.123Z"
                                           "2026-10-31T01:00:00.123Z") in H.
    + discriminate H.
    + vm_compute. reflexivity.
    + vm_compute. reflexivity.
Qed.

(** ** Array accesses of [analyzeAlerts] and [calculateMetrics] *)

Lemma index_last {A : Type} (init : list A) (x : A) :
  index (init ++ [x]) (len (init ++ [x]) - 1) = Some x.
Proof.
  unfold index, len. rewrite length_app. cbn [List.length].
  destruct (Z.ltb_spec (Z.of_nat (List.length init + 1) - 1) 0) as [H|H]; [lia|].
  replace (Z.to_nat (Z.of_nat (List.length init + 1) - 1)) with (List.length init) by lia.
  rewrite nth_error_app2 by lia. rewrite Nat.sub_diag. reflexivity.
Qed.

Lemma index_last_none_iff {A : Type} (a : list A) :
  index a (len a - 1) = None <-> a = [].
Proof.
  split.
  - intro H. destruct a as [|x a']; [reflexivity|].
    destruct (exists_last (l := x :: a')) as (init & y & E); [discriminate|].
    rewrite E, index_last in H. discriminate.
  - intros ->. reflexivity.
Qed.

(** [data.slice(-12)] is the suffix of [data] from position [length - 12]
    (from 0 when there are fewer than 12 elements). *)
Lemma slice_recent {A : Type} (a : list A) :
  slice a (-12) None = skipn (List.length a - 12) a.
Proof.
  unfold slice, relative_index, len. cbn [Z.ltb Z.compare].
  replace (Z.to_nat (Z.max (Z.of_nat (List.length a) + -12) 0))
    with (List.length a - 12)%nat by lia.
  apply firstn_all2. rewrite length_skipn. lia.
Qed.

(** [data.slice(-24, -12)] is the part of [data] between the positions
    [length - 24] and [length - 12], both taken as 0 when negative. *)
Lemma slice_older {A : Type} (a : list A) :
  slice a (-24) (Some (-12)%Z)
  = firstn ((List.length a - 12) - (List.length a - 24)) (skipn (List.length a - 24) a).
Proof.
  unfold slice, relative_index, len. cbn [Z.ltb Z.compare].
  f_equal; [|f_equal]; lia.
Qed.

Lemma slice_incl {A : Type} (a : list A) (start : Z) (stop : option Z) :
  incl (slice a start stop) a.
Proof.
  unfold slice. intros x Hx.
  set (k := Z.to_nat (relative_index (len a) start)) in *.
  set (m := Z.to_nat _) in Hx.
  rewrite <- (firstn_skipn k a). apply in_or_app. right.
  rewrite <- (firstn_skipn m (skipn k a)). apply in_or_app. left. exact Hx.
Qed.

Section Alerts.

Variable Number_toString : Q -> string.

(** On a non-empty array [analyzeAlerts] returns the temperature alert (if
    any), then the vibration alert (if any), then the performance alert (if
    any), each stamped with the latest point's timestamp. *)
Lemma analyzeAlerts_last (init : list TurbineDataPoint) (latest : TurbineDataPoint) :
  exists temp vib perf : list TurbineAlert,
    analyzeAlerts Number_toString (init ++ [latest]) = Return (temp ++ vib ++ perf) /\
    temp = (if gt (temperature latest) 70 then
              [ {| id := "temp-1"; type := high_temp;
                   severity := if gt (temperature latest) 75 then critical else warning;
                   message := "High temperature detected: "
                                ++ Number_toString (temperature latest)
                                ++ "°C (threshold: 70°C)";
                   alert_timestamp := timestamp latest |} ]
            else []) /\
    vib = (if gt (vibration latest) 4.0 then
             [ {| id := "vib-1"; type := high_vibration;
                  severity := if gt (vibration latest) 4.5 then critical else warning;
                  message := "Elevated vibration levels: "
                               ++ Number_toString (vibration latest)
                               ++ " (threshold: 4.0)";
                  alert_timestamp := timestamp latest |} ]
           else []) /\
    Forall (fun a => type a = low_performance /\ severity a = warning /\
                     alert_timestamp a = timestamp latest) perf.
Proof.
  unfold analyzeAlerts. cbv zeta. rewrite index_last. cbn [member cbind].
  destruct (gt (temperature latest) 70) eqn:Ht;
    destruct (gt (vibration latest) 4.0) eqn:Hv;
    cbn [member cbind app];
    match goal with
    | |- context [if ?c then _ else _] => destruct c
    end;
    do 3 eexists; (split; [|split; [reflexivity | split; [reflexivity|]]]).
  all: try (instantiate (1 := []); cbn [app]; rewrite ?app_nil_r; reflexivity).
  all: try (cbn [cbind app]; reflexivity).
  all: repeat constructor.
Qed.

End Alerts.

(** C10.  On every non-empty array, written [init ++ [latest]],
    [analyzeAlerts] returns a list that holds a high_temp alert exactly when
    the latest temperature is above 70, critical exactly when it is above 75
    and a warning otherwise; that holds a high_vibration alert exactly when
    the latest vibration is above 4.0, critical exactly when it is above 4.5
    and a warning otherwise; and whose every alert carries the latest point's
    timestamp. *)
Theorem analyzeAlerts_thresholds
  (Number_toString : Q -> string) (init : list TurbineDataPoint) (latest : TurbineDataPoint) :
  exists alerts : list TurbineAlert,
    analyzeAlerts Number_toString (init ++ [latest]) = Return alerts /\
    ((exists a, In a alerts /\ type a = high_temp) <-> 70 < temperature latest) /\
    (forall a, In a alerts -> type a = high_temp ->
       (severity a = critical <-> 75 < temperature latest) /\
       (severity a = warning <-> temperature latest <= 75)) /\
    ((exists a, In a alerts /\ type a = high_vibration) <-> 4.0 < vibration latest) /\
    (forall a, In a alerts -> type a = high_vibration ->
       (severity a = critical <-> 4.5 < vibration latest) /\
       (severity a = warning <-> vibration latest <= 4.5)) /\
    Forall (fun a => alert_timestamp a = timestamp latest) alerts.
Proof.
  destruct (analyzeAlerts_last Number_toString init latest)
    as (temp & vib & perf & Hrun & Htemp & Hvib & Hperf).
  exists (temp ++ vib ++ perf). split; [exact Hrun|].
  rewrite Forall_forall in Hperf.
  setoid_rewrite <- gt_true_iff. setoid_rewrite <- gt_false_iff.
  destruct (gt (temperature latest) 70) eqn:Ht;
    destruct (gt (vibration latest) 4.0) eqn:Hv; subst temp vib.
  all: repeat split.
  all: try (intros (a & Hin & Hty); exfalso).
  all: try (intros _;
            first [ solve [eexists; split; [cbn [app In]; left; reflexivity | reflexivity]]
                  | solve [eexists; split;
                           [cbn [app In]; right; left; reflexivity | reflexivity]] ]).
  all: try discriminate.
  all: try (apply Forall_forall; intros a Hin).
  all: try match goal with
           | Hin : In _ _ |- _ =>
               cbn [app In] in Hin;
               repeat match type of Hin with
                      | _ \/ _ => destruct Hin as [<- | Hin]
                      | False => contradiction
                      end;
               try (destruct (Hperf _ Hin) as (Hp1 & Hp2 & Hp3))
           end.
  all: cbn [type severity alert_timestamp] in *; try congruence; try discriminate.
  all: try (intro Hsev; rewrite Hsev; reflexivity).
  all: match goal with
       | |- (if ?c then _ else _) = _ -> _ => destruct c; congruence
       end.
Qed.

(** C8.  [analyzeAlerts] and [calculateMetrics] read [data[data.length - 1]]
    unguarded.  That read is [undefined] exactly on the empty array, and each
    function throws (the [TypeError] of reading a property of [undefined])
    exactly on the empty array and returns normally on every other one; the
    two slices taken by [analyzeAlerts] stay within the array whatever its
    length. *)
Theorem analyzeAlerts_calculateMetrics_throw_iff_empty
  (Number_toString : Q -> string) (data : list TurbineDataPoint) :
  (index data (len data - 1) = None <-> data = []) /\
  (analyzeAlerts Number_toString data = Throw TypeError <-> data = []) /\
  (calculateMetrics data = Throw TypeError <-> data = []) /\
  ((exists alerts, analyzeAlerts Number_toString data = Return alerts) <-> data <> []) /\
  ((exists metrics, calculateMetrics data = Return metrics) <-> data <> []) /\
  slice data (-12) None = skipn (List.length data - 12) data /\
  slice data (-24) (Some (-12)%Z)
  = firstn ((List.length data - 12) - (List.length data - 24))
           (skipn (List.length data - 24) data) /\
  incl (slice data (-12) None) data /\
  incl (slice data (-24) (Some (-12)%Z)) data.
Proof.
  assert (Hcases : data = [] \/ exists init latest, data = init ++ [latest]).
  { destruct data as [|x rest]; [left; reflexivity | right].
    destruct (exists_last (l := x :: rest)) as (init & latest & E); [discriminate|].
    exists init, latest. exact E. }
  assert (Hmetrics : forall init latest,
             exists m, calculateMetrics (init ++ [latest]) = Return m).
  { intros init latest. unfold calculateMetrics. cbv zeta.
    rewrite index_last. cbn [member cbind]. eexists. reflexivity. }
  split; [apply index_last_none_iff|].
  split; [|split; [|split; [|split; [|split; [|split; [|split]]]]]].
  - destruct Hcases as [-> | (init & latest & ->)].
    + split; reflexivity.
    + destruct (analyzeAlerts_last Number_toString init latest) as (t & v & p & Hrun & _).
      rewrite Hrun. split; [discriminate | intro E; destruct init; discriminate].
  - destruct Hcases as [-> | (init & latest & ->)].
    + split; reflexivity.
    + destruct (Hmetrics init latest) as (m & Hrun).
      rewrite Hrun. split; [discriminate | intro E; destruct init; discriminate].
  - destruct Hcases as [-> | (init & latest & ->)].
    + split; [intros (alerts & H); discriminate | intro H; contradiction].
    + destruct (analyzeAlerts_last Number_toString init latest) as (t & v & p & Hrun & _).
      split; [intros _ E; destruct init; discriminate | intros _; eexists; exact Hrun].
  - destruct Hcases as [-> | (init & latest & ->)].
    + split; [intros (m & H); discriminate | intro H; contradiction].
    + split; [intros _ E; destruct init; discriminate | intros _; apply Hmetrics].
  - apply slice_recent.
  - apply slice_older.
  - apply slice_incl.
  - apply slice_incl.
Qed.

(* ================================================================== *)
(** * Part IV.  Properties of the chunker and the retriever            *)
(* ================================================================== *)

(** ** The chunker's loop *)

Lemma substring_whole (s : string) : substring 0 (String.length s) s = s.
Proof.
  induction s as [|a s IH]; cbn; [reflexivity | rewrite IH; reflexivity].
Qed.

Section Chunker.

Variable d : Rag.Document.
Variables size step : nat.
Hypothesis step_pos : (0 < step)%nat.
Hypothesis step_le_size : (step <= size)%nat.

Let L : nat := String.length (Rag.raw_text d).

(** With one unit of fuel per remaining character, and one more, the loop
    finishes, and what it returns has the shape [tiling] describes. *)
Lemma emit_tiling (fuel : nat) :
  forall offset ord : nat,
    (L - offset < fuel)%nat ->
    exists cs, Rag.emit fuel d size step offset ord = Some cs /\
               Rag.tiling d size step offset ord cs.
Proof.
  induction fuel as [|fuel IH]; intros offset ord Hfuel; [lia|].
  cbn [Rag.emit]. fold L.
  destruct (Nat.leb_spec L (offset + size)) as [Hend | Hmore].
  - eexists. split; [reflexivity|]. apply Rag.tiling_last. exact Hend.
  - destruct (IH (offset + step)%nat (S ord)) as (cs & Hrun & Hshape); [lia|].
    rewrite Hrun. eexists. split; [reflexivity|].
    apply Rag.tiling_more; assumption.
Qed.




(** A document no longer than a window gives the one chunk that spans it. *)
Lemma tiling_short (cs : list Rag.Chunk) :
  Rag.tiling d size step 0 0 cs -> (L <= size)%nat -> cs = [Rag.window d size 0 0].
Proof.
  intros H Hshort. inversion H as [offset ord Hend | offset ord cs' Hmore Hrest]; subst.
  - reflexivity.
  - fold L in Hmore. lia.
Qed.

End Chunker.

(** Scenario 3 and the edge case of section 4.1 hold of the model: a
    document no longer than [chunk_size] yields exactly one chunk, which
    spans the whole document and holds its whole text. *)
Lemma chunk_short_document (d : Rag.Document) (chunk_size overlap : Z) :
  (0 <= overlap < chunk_size)%Z ->
  (Z.of_nat (String.length (Rag.raw_text d)) <= chunk_size)%Z ->
  exists c, Rag.chunk d chunk_size overlap = Rag.Ok [c] /\
            Rag.char_start c = 0%nat /\
            Rag.char_end c = String.length (Rag.raw_text d) /\
            Rag.text c = Rag.raw_text d.
Proof.
  intros Hoverlap Hshort.
  set (size := Z.to_nat chunk_size). set (step := Z.to_nat (chunk_size - overlap)).
  assert (Hstep : (0 < step)%nat) by (unfold step; lia).
  assert (Hle : (step <= size)%nat) by (unfold step, size; lia).
  destruct (emit_tiling d size step Hstep Hle (S (String.length (Rag.raw_text d))) 0 0)
    as (cs & Hrun & Hshape); [lia|].
  apply (tiling_short d size step Hstep Hle) in Hshape; [|unfold size; lia]. subst cs.
  exists (Rag.window d size 0 0). split.
  - unfold Rag.chunk, Rag.valid_params.
    replace (0 <? chunk_size)%Z with true by (symmetry; apply Z.ltb_lt; lia).
    replace (0 <=? overlap)%Z with true by (symmetry; apply Z.leb_le; lia).
    replace (overlap <? chunk_size)%Z with true by (symmetry; apply Z.ltb_lt; lia).
    cbn [andb]. fold size step. rewrite Hrun. reflexivity.
  - cbn [Rag.window Rag.char_start Rag.char_end Rag.text].
    replace (Nat.min (0 + size) (String.length (Rag.raw_text d)))
      with (String.length (Rag.raw_text d)) by (unfold size; lia).
    rewrite Nat.sub_0_r, substring_whole. repeat split.
Qed.



(** ** The ranking order *)

Lemma key_leb_iff (a b : nat * nat) : Rag.key_leb a b = true <-> Rag.key_le a b.
Proof.
  unfold Rag.key_leb, Rag.key_le.
  rewrite orb_true_iff, andb_true_iff, Nat.ltb_lt, Nat.eqb_eq, Nat.leb_le. tauto.
Qed.

Lemma ranks_before_iff (a b : Rag.Candidate) :
  Rag.ranks_before a b = true <-> Rag.precedes a b.
Proof.
  unfold Rag.ranks_before, Rag.precedes.
  rewrite orb_true_iff, andb_true_iff, gt_true_iff, Qeq_bool_iff, key_leb_iff. tauto.
Qed.

(** Of two candidates, one may stand before the other. *)
Lemma precedes_total (a b : Rag.Candidate) :
  Rag.precedes a b \/ Rag.precedes b a.
Proof.
  unfold Rag.precedes, Rag.key_le.
  destruct (Q_dec (Rag.similarity_to_query a) (Rag.similarity_to_query b))
    as [[Hlt | Hgt] | Heq].
  - right. left. exact Hlt.
  - left. left. exact Hgt.
  - destruct (Nat.lt_total (fst (Rag.tie_key a)) (fst (Rag.tie_key b))) as [H | [H | H]].
    + left. right. split; [exact Heq | left; exact H].
    + destruct (Nat.le_ge_cases (snd (Rag.tie_key a)) (snd (Rag.tie_key b))) as [H' | H'].
      * left. right. split; [exact Heq | right; split; assumption].
      * right. right. split; [symmetry; exact Heq | right; split; [symmetry|]; assumption].
    + right. right. split; [symmetry; exact Heq | left; exact H].
Qed.

Lemma precedes_trans (a b c : Rag.Candidate) :
  Rag.precedes a b -> Rag.precedes b c -> Rag.precedes a c.
Proof.
  unfold Rag.precedes, Rag.key_le.
  intros [Hab | (Eab & Kab)] [Hbc | (Ebc & Kbc)].
  - left. lra.
  - left. lra.
  - left. lra.
  - right. split; [lra | lia].
Qed.

(** A candidate that may stand before another does not score less. *)
Lemma precedes_score (a b : Rag.Candidate) :
  Rag.precedes a b -> Rag.score (Rag.result_of b) <= Rag.score (Rag.result_of a).
Proof.
  unfold Rag.precedes. cbn [Rag.result_of Rag.score]. intros [H | (H & _)]; lra.
Qed.

Lemma insert_ranked_In (r x : Rag.Candidate) (l : list Rag.Candidate) :
  In x (Rag.insert_ranked r l) <-> x = r \/ In x l.
Proof.
  induction l as [|y l IH]; cbn.
  - intuition congruence.
  - destruct (Rag.ranks_before r y); cbn; rewrite ?IH; intuition congruence.
Qed.

Lemma rank_In (x : Rag.Candidate) (l : list Rag.Candidate) :
  In x (Rag.rank l) <-> In x l.
Proof.
  induction l as [|y l IH]; cbn; [tauto|].
  rewrite insert_ranked_In, IH. intuition congruence.
Qed.

Lemma insert_ranked_sorted (r : Rag.Candidate) (l : list Rag.Candidate) :
  StronglySorted Rag.precedes l -> StronglySorted Rag.precedes (Rag.insert_ranked r l).
Proof.
  induction 1 as [|y l Hsorted IH Hy]; cbn.
  - constructor; constructor.
  - destruct (Rag.ranks_before r y) eqn:E.
    + apply ranks_before_iff in E. constructor; [constructor; assumption|].
      constructor; [exact E|].
      eapply Forall_impl; [|exact Hy]. intros z Hz. exact (precedes_trans _ _ _ E Hz).
    + assert (Hyr : Rag.precedes y r).
      { destruct (precedes_total r y) as [H | H]; [|exact H].
        apply ranks_before_iff in H. congruence. }
      constructor; [exact IH|].
      apply Forall_forall. intros z Hz. apply insert_ranked_In in Hz.
      destruct Hz as [-> | Hz]; [exact Hyr|].
      rewrite Forall_forall in Hy. apply Hy, Hz.
Qed.

Lemma rank_sorted (l : list Rag.Candidate) : StronglySorted Rag.precedes (Rag.rank l).
Proof.
  induction l as [|x l IH]; cbn; [constructor | apply insert_ranked_sorted, IH].
Qed.

(** Ranking reorders and neither drops nor repeats a candidate. *)
Lemma rank_permutation (l : list Rag.Candidate) : Permutation (Rag.rank l) l.
Proof.
  assert (Hins : forall r l', Permutation (Rag.insert_ranked r l') (r :: l')).
  { intros r l'. induction l' as [|y l' IH]; cbn; [reflexivity|].
    destruct (Rag.ranks_before r y); [reflexivity|].
    rewrite IH. apply perm_swap. }
  induction l as [|x l IH]; cbn; [constructor|].
  rewrite Hins. constructor. exact IH.
Qed.

(** ** Sub-lists and images of a sorted list *)

Lemma firstn_sorted {A : Type} (R : A -> A -> Prop) (k : nat) (l : list A) :
  StronglySorted R l -> StronglySorted R (firstn k l).
Proof.
  intro H. revert k. induction H as [|x l Hsorted IH Hx]; intro k.
  - rewrite firstn_nil. constructor.
  - destruct k as [|k]; cbn; constructor; [apply IH|].
    apply Forall_forall. intros y Hy. rewrite Forall_forall in Hx. apply Hx.
    rewrite <- (firstn_skipn k l). apply in_or_app. left. exact Hy.
Qed.

Lemma filter_sorted {A : Type} (R : A -> A -> Prop) (f : A -> bool) (l : list A) :
  StronglySorted R l -> StronglySorted R (filter f l).
Proof.
  induction 1 as [|x l Hsorted IH Hx]; cbn; [constructor|].
  destruct (f x); [|exact IH].
  constructor; [exact IH|].
  apply Forall_forall. intros y Hy. apply filter_In in Hy.
  rewrite Forall_forall in Hx. apply Hx, Hy.
Qed.

Lemma map_sorted {A B : Type} (R : A -> A -> Prop) (R' : B -> B -> Prop)
  (f : A -> B) (l : list A) :
  (forall a b, R a b -> R' (f a) (f b)) ->
  StronglySorted R l -> StronglySorted R' (map f l).
Proof.
  intros Hf. induction 1 as [|x l Hsorted IH Hx]; cbn; constructor; [exact IH|].
  apply Forall_map. eapply Forall_impl; [|exact Hx]. intros y Hy. apply Hf, Hy.
Qed.

Lemma firstn_In_list {A : Type} (k : nat) (l : list A) (x : A) :
  In x (firstn k l) -> In x l.
Proof.
  intro H. rewrite <- (firstn_skipn k l). apply in_or_app. left. exact H.
Qed.

Lemma filter_length_mono {A : Type} (f g : A -> bool) (l : list A) :
  (forall x, In x l -> f x = true -> g x = true) ->
  (List.length (filter f l) <= List.length (filter g l))%nat.
Proof.
  induction l as [|x l IH]; intro H; cbn; [lia|].
  assert (IH' : (List.length (filter f l) <= List.length (filter g l))%nat).
  { apply IH. intros y Hy. apply H. right. exact Hy. }
  destruct (f x) eqn:Ef.
  - rewrite (H x (or_introl eq_refl) Ef). cbn. lia.
  - destruct (g x); cbn; lia.
Qed.

(** ** The retriever *)

Lemma clears_iff (min_score : Q) (c : Rag.Candidate) :
  Rag.clears min_score c = true <-> ~ Rag.similarity_to_query c < min_score.
Proof.
  unfold Rag.clears. rewrite Qle_bool_iff. split.
  - intros H Hlt. apply (Qlt_not_le _ _ Hlt H).
  - apply Qnot_lt_le.
Qed.

Lemma filter_none {A : Type} (f : A -> bool) (l : list A) :
  (forall x, In x l -> f x = false) -> filter f l = [].
Proof.
  induction l as [|x l IH]; intro H; cbn; [reflexivity|].
  rewrite (H x (or_introl eq_refl)). apply IH. intros y Hy. apply H. right. exact Hy.
Qed.

Section RetrieverProperties.

Variable indexed : list Rag.Chunk.
Variable similarity : string -> Rag.Chunk -> Q.

(** A candidate among the best-ranked is the candidate of an indexed chunk. *)
Lemma top_In (query_text : string) (top_k : nat) (c : Rag.Candidate) :
  In c (firstn top_k (Rag.rank (map (Rag.score_chunk similarity query_text) indexed))) ->
  exists ch, In ch indexed /\ c = Rag.score_chunk similarity query_text ch.
Proof.
  intro H. apply firstn_In_list, rank_In, in_map_iff in H.
  destruct H as (ch & E & Hc). exists ch. split; [exact Hc | symmetry; exact E].
Qed.

End RetrieverProperties.

(** C5.  For every index, query, [top_k] and [min_score], [retrieve] returns
    a list (never an error) of at most [top_k] results: the results of the
    candidates [ranked] keeps, which are candidates of indexed chunks and
    stand in descending score order with ties in ascending
    [(document_id, ordinal)] order of their chunks, so that the scores of the
    results descend.  The full ranking they are taken from is a reordering of
    all candidates in that order.  No result has a score below [min_score];
    every one of the [top_k] best-ranked candidates that is not below the
    floor is kept; and the list is empty when every chunk scores below the
    floor. *)
Theorem retrieve_bounded_sorted_filtered
  (indexed : list Rag.Chunk) (similarity : string -> Rag.Chunk -> Q)
  (query_text : string) (top_k : nat) (min_score : Q) :
  (List.length (Rag.retrieve indexed similarity query_text top_k min_score) <= top_k)%nat /\
  Rag.retrieve indexed similarity query_text top_k min_score
  = map Rag.result_of (Rag.ranked indexed similarity query_text top_k min_score) /\
  StronglySorted Rag.precedes (Rag.ranked indexed similarity query_text top_k min_score) /\
  StronglySorted (fun a b => Rag.score b <= Rag.score a)
                 (Rag.retrieve indexed similarity query_text top_k min_score) /\
  Forall (fun r => ~ Rag.score r < min_score)
         (Rag.retrieve indexed similarity query_text top_k min_score) /\
  (forall c, In c (Rag.ranked indexed similarity query_text top_k min_score) ->
             exists ch, In ch indexed /\ c = Rag.score_chunk similarity query_text ch) /\
  Permutation (Rag.rank (map (Rag.score_chunk similarity query_text) indexed))
              (map (Rag.score_chunk similarity query_text) indexed) /\
  StronglySorted Rag.precedes
                 (Rag.rank (map (Rag.score_chunk similarity query_text) indexed)) /\
  (forall c, In c (firstn top_k (Rag.rank (map (Rag.score_chunk similarity query_text)
                                               indexed))) ->
             ~ Rag.similarity_to_query c < min_score ->
             In c (Rag.ranked indexed similarity query_text top_k min_score)) /\
  ((forall ch, In ch indexed -> similarity query_text ch < min_score) ->
   Rag.retrieve indexed similarity query_text top_k min_score = []).
Proof.
  assert (Hsorted : StronglySorted Rag.precedes
                      (Rag.ranked indexed similarity query_text top_k min_score)).
  { unfold Rag.ranked. apply filter_sorted, firstn_sorted, rank_sorted. }
  unfold Rag.retrieve.
  split; [|split; [|split; [|split; [|split; [|split; [|split; [|split; [|split]]]]]]]].
  - rewrite length_map. unfold Rag.ranked.
    eapply Nat.le_trans; [apply filter_length_le | apply firstn_le_length].
  - reflexivity.
  - exact Hsorted.
  - apply (map_sorted Rag.precedes); [apply precedes_score | exact Hsorted].
  - apply Forall_map, Forall_forall. intros c Hc. unfold Rag.ranked in Hc.
    apply filter_In in Hc. cbn [Rag.result_of Rag.score]. apply clears_iff, Hc.
  - intros c Hc. unfold Rag.ranked in Hc. apply filter_In in Hc.
    apply (top_In indexed similarity query_text top_k), Hc.
  - apply rank_permutation.
  - apply rank_sorted.
  - intros c Hc Hfloor. unfold Rag.ranked. apply filter_In.
    split; [exact Hc | apply clears_iff, Hfloor].
  - intro Hall. unfold Rag.ranked. rewrite filter_none; [reflexivity|].
    intros c Hc.
    destruct (top_In indexed similarity query_text top_k c Hc) as (ch & Hch & ->).
    destruct (Rag.clears min_score _) eqn:E; [|reflexivity].
    apply clears_iff in E. exfalso. apply E. cbn. apply Hall, Hch.
Qed.

(** C6.  With similarities that are never negative (the score bounds of
    section 8), for every query, [top_k], and thresholds [s <= s']: the
    results of [retrieve] at floor [s] are among those at floor [0], also by
    chunk id, and the floor [s'] returns no more results than [s]. *)
Theorem retrieve_monotone_in_min_score
  (indexed : list Rag.Chunk) (similarity : string -> Rag.Chunk -> Q)
  (query_text : string) (top_k : nat) (s s' : Q) :
  (forall c, In c indexed -> 0 <= similarity query_text c) ->
  s <= s' ->
  incl (Rag.retrieve indexed similarity query_text top_k s)
       (Rag.retrieve indexed similarity query_text top_k 0) /\
  incl (map Rag.result_id (Rag.retrieve indexed similarity query_text top_k s))
       (map Rag.result_id (Rag.retrieve indexed similarity query_text top_k 0)) /\
  (List.length (Rag.retrieve indexed similarity query_text top_k s')
   <= List.length (Rag.retrieve indexed similarity query_text top_k s))%nat.
Proof.
  intros Hbound Hle.
  assert (Hincl : incl (Rag.retrieve indexed similarity query_text top_k s)
                       (Rag.retrieve indexed similarity query_text top_k 0)).
  { unfold Rag.retrieve, Rag.ranked. intros r Hr. apply in_map_iff in Hr.
    destruct Hr as (c & <- & Hc). apply filter_In in Hc. destruct Hc as (Hc & _).
    apply in_map, filter_In. split; [exact Hc|].
    destruct (top_In indexed similarity query_text top_k c Hc) as (ch & Hch & ->).
    unfold Rag.clears. apply Qle_bool_iff. cbn. apply Hbound, Hch. }
  split; [exact Hincl | split].
  - apply incl_map, Hincl.
  - unfold Rag.retrieve, Rag.ranked. rewrite !length_map. apply filter_length_mono.
    intros c _. unfold Rag.clears. rewrite !Qle_bool_iff. intro H.
    apply (Qle_trans _ _ _ Hle H).
Qed.

(** On the index of the four-character manual, with the query "abc": the
    floor 1/2 keeps a subset of what the floor 0 keeps, and the floor 1 keeps
    no more than the floor 1/2. *)
Lemma retrieve_monotone_witness :
  incl (Rag.retrieve abcd_chunks exact_match "abc" 2 (1 # 2))
       (Rag.retrieve abcd_chunks exact_match "abc" 2 0) /\
  incl (map Rag.result_id (Rag.retrieve abcd_chunks exact_match "abc" 2 (1 # 2)))
       (map Rag.result_id (Rag.retrieve abcd_chunks exact_match "abc" 2 0)) /\
  (List.length (Rag.retrieve abcd_chunks exact_match "abc" 2 1)
   <= List.length (Rag.retrieve abcd_chunks exact_match "abc" 2 (1 # 2)))%nat.
Proof.
  apply (retrieve_monotone_in_min_score abcd_chunks exact_match "abc" 2 (1 # 2) 1).
  - intros c _. unfold exact_match. destruct (String.eqb _ _); lra.
  - lra.
Defined.

(* ================================================================== *)
(** * Part V.  Further properties of the telemetry library and its callers *)
(* ================================================================== *)

(** ** The generator, point by point *)

Lemma Qdiv_as_mult (p : Q) (c : positive) : p / inject_Z (Zpos c) == p * (1 # c).
Proof. unfold Qdiv. reflexivity. Qed.

Section GeneratorPoints.

Variable Math_sin : Q -> Q.
Variable toISOString : Z -> string.

(** The temperature, vibration and status of a sample in terms of its power. *)
Lemma simulate_health (rt : Runtime) (i n : nat) :
  let s := fst (simulate Math_sin rt i n) in
  temperature_ s = (if lt_int i 15 then 35 + (powerOutput s / 2000) * 30 + 15
                    else 35 + (powerOutput s / 2000) * 30) /\
  vibration_ s = (if lt_int i 15 then 1.0 + (powerOutput s / 2000) * 2 + 2.5
                  else 1.0 + (powerOutput s / 2000) * 2) /\
  status_ s = (if gt (temperature_ s) 70 || gt (vibration_ s) 4.0
               then warning_status else operating).
Proof.
  cbv beta iota zeta delta [simulate rbind Math_random rret fst
                            temperature_ vibration_ status_ powerOutput].
  repeat split.
Qed.

(** The loop pushes the points of the counters [i, i-1, ..., 0], in that order. *)
Lemma generate_from_points (rt : Runtime) (i : nat) :
  forall (data : list TurbineDataPoint) (n : nat),
    fst (generate_from Math_sin toISOString rt i data n)
    = data ++ map (fun j => dataPoint toISOString rt j
                              (fst (simulate Math_sin rt j (n + 2 * (i - j))%nat)))
                  (rev (seq 0 (S i))).
Proof.
  induction i as [|j IH]; intros data n.
  - cbn [generate_from]. unfold rbind. rewrite simulate_draws. cbn.
    rewrite Nat.add_0_r. reflexivity.
  - cbn [generate_from]. unfold rbind. rewrite simulate_draws.
    rewrite IH, <- app_assoc. f_equal.
    rewrite (seq_S (S j)), rev_app_distr. cbn [rev app map Nat.add].
    f_equal.
    + rewrite Nat.sub_diag, Nat.add_0_r. reflexivity.
    + apply map_ext_in. intros k Hk. apply in_rev, in_seq in Hk.
      do 3 f_equal. lia.
Qed.

(** The data of a call are the 48 points of the hours 47, ..., 0 before the
    clock reading. *)
Lemma generateTurbineData_points (rt : Runtime) :
  generateTurbineData Math_sin toISOString rt
  = map (generated_point Math_sin toISOString rt) hours_ago.
Proof.
  unfold generateTurbineData. rewrite generate_from_points. reflexivity.
Qed.

End GeneratorPoints.

(** ** Rounding *)

Lemma Math_round_integer (x : Q) : exists z : Z, Math_round x = inject_Z z.
Proof. eexists. reflexivity. Qed.

Lemma Math_round_le (x : Q) : Math_round x <= x + (1 # 2).
Proof. unfold Math_round. apply Qfloor_le. Qed.


(** A rounded number above an integer is at least the next integer. *)
Lemma Math_round_above (x : Q) (k : Z) :
  inject_Z k < Math_round x -> inject_Z (k + 1) <= Math_round x.
Proof.
  unfold Math_round. rewrite <- Zlt_Qlt, <- Zle_Qle. lia.
Qed.

(** Rounding does not go below an integer the number is not below. *)
Lemma Math_round_floor_le (x : Q) (k : Z) : inject_Z k <= x -> inject_Z k <= Math_round x.
Proof.
  intro H. unfold Math_round. rewrite <- Zle_Qle, <- (Qfloor_Z k).
  apply Qfloor_resp_le. lra.
Qed.

Section GeneratedHealth.

Variable Math_sin : Q -> Q.
Variable toISOString : Z -> string.

(** The health of a point 15 or more hours old. *)
Lemma generated_point_old (rt : Runtime) (j : nat) :
  (15 <= j)%nat ->
  let p := generated_point Math_sin toISOString rt j in
  status p = operating /\ 35 <= temperature p <= 65 /\ 1 <= vibration p <= 3.
Proof.
  intros Hj p. subst p. unfold generated_point.
  set (n := (2 * (47 - j))%nat).
  destruct (simulate_in_range Math_sin rt j n) as (_ & (Hp1 & Hp2) & _).
  destruct (simulate_health Math_sin rt j n) as (Ht & Hv & Hs).
  set (s := fst (simulate Math_sin rt j n)) in *.
  replace (lt_int j 15) with false in Ht, Hv
    by (symmetry; apply Nat.ltb_ge; exact Hj).
  assert (Hq := Qdiv_as_mult (powerOutput s) 2000). change (inject_Z 2000) with 2000 in Hq.
  assert (HT : 35 <= temperature_ s <= 65) by (rewrite Ht; lra).
  assert (HV : 1 <= vibration_ s <= 3) by (rewrite Hv; lra).
  unfold dataPoint; cbn [status temperature vibration].
  split; [|split].
  - rewrite Hs.
    replace (gt (temperature_ s) 70) with false by (symmetry; apply gt_false_iff; lra).
    replace (gt (vibration_ s) 4.0) with false by (symmetry; apply gt_false_iff; lra).
    reflexivity.
  - apply (Math_round_bounds 35 65). change (inject_Z 35) with 35.
    change (inject_Z 65) with 65. lra.
  - assert (Hr : inject_Z 10 <= Math_round (vibration_ s * 10) <= inject_Z 30).
    { apply Math_round_bounds. change (inject_Z 10) with 10. change (inject_Z 30) with 30. lra. }
    change (inject_Z 10) with 10 in Hr. change (inject_Z 30) with 30 in Hr.
    split; [apply Qle_shift_div_l | apply Qle_shift_div_r]; try reflexivity; lra.
Qed.

(** The health of a point less than 15 hours old, in terms of its power
    before rounding. *)
Lemma generated_sample_recent (rt : Runtime) (j n : nat) :
  (j < 15)%nat ->
  let s := fst (simulate Math_sin rt j n) in
  temperature_ s == 50 + powerOutput s * (3 # 200) /\
  vibration_ s == (7 # 2) + powerOutput s * (1 # 1000) /\
  (status_ s = warning_status <-> 500 < powerOutput s) /\
  0 <= powerOutput s <= 2000.
Proof.
  intros Hj s.
  destruct (simulate_in_range Math_sin rt j n) as (_ & (Hp1 & Hp2) & Hstat).
  destruct (simulate_health Math_sin rt j n) as (Ht & Hv & Hs).
  fold s in Hp1, Hp2, Hstat, Ht, Hv, Hs.
  replace (lt_int j 15) with true in Ht, Hv
    by (symmetry; apply Nat.ltb_lt; exact Hj).
  assert (Hq := Qdiv_as_mult (powerOutput s) 2000). change (inject_Z 2000) with 2000 in Hq.
  assert (HT : temperature_ s == 50 + powerOutput s * (3 # 200)) by (rewrite Ht; lra).
  assert (HV : vibration_ s == (7 # 2) + powerOutput s * (1 # 1000)) by (rewrite Hv; lra).
  split; [exact HT | split; [exact HV | split; [|split; assumption]]].
  rewrite Hs. split.
  - destruct (gt (temperature_ s) 70 || gt (vibration_ s) 4.0) eqn:E; [intros _ | discriminate].
    apply orb_true_iff in E. destruct E as [E | E]; apply gt_true_iff in E; lra.
  - intro H. replace (gt (vibration_ s) 4.0) with true by (symmetry; apply gt_true_iff; lra).
    rewrite orb_true_r. reflexivity.
Qed.

End GeneratedHealth.

(** X1.  The timestamps of a call are hourly and oldest first: the point at
    position [k] is stamped [47 - k] hours before the clock reading, so the
    last one carries the clock reading itself. *)
Theorem generateTurbineData_timestamps
  (Math_sin : Q -> Q) (toISOString : Z -> string) (rt : Runtime) :
  map timestamp (generateTurbineData Math_sin toISOString rt)
  = map (fun j => toISOString (Date_now rt - Z.of_nat j * 3600000)%Z) hours_ago /\
  (forall d, timestamp (last (generateTurbineData Math_sin toISOString rt) d)
             = toISOString (Date_now rt)).
Proof.
  rewrite generateTurbineData_points. split.
  - rewrite map_map. apply map_ext. intro j.
    unfold generated_point, dataPoint. cbn [timestamp]. f_equal. lia.
  - intro d. change hours_ago with (rev (seq 1 47) ++ [0%nat]).
    rewrite map_app. cbn [map]. rewrite last_last.
    unfold generated_point, dataPoint. cbn [timestamp]. f_equal. lia.
Qed.

(** X2.  The first 33 points of a call, those 15 or more hours old, always
    have status 'operating', a temperature between 35 and 65 and a vibration
    between 1 and 3: the generator places every warning in the last 15 hours. *)
Theorem generateTurbineData_old_points_operating
  (Math_sin : Q -> Q) (toISOString : Z -> string) (rt : Runtime) :
  Forall (fun p => status p = operating /\ 35 <= temperature p <= 65 /\
                   1 <= vibration p <= 3)
         (firstn 33 (generateTurbineData Math_sin toISOString rt)).
Proof.
  rewrite generateTurbineData_points, firstn_map.
  change (firstn 33 hours_ago) with (rev (seq 15 33)).
  apply Forall_forall. intros p Hp. apply in_map_iff in Hp.
  destruct Hp as (j & <- & Hj). apply in_rev, in_seq in Hj.
  apply generated_point_old. lia.
Qed.

(** X3.  Each of the last 15 points of a call has a temperature between 50
    and 80 and a vibration between 3.5 and 5.5; it has status 'warning'
    whenever its power output is above 500, and a power output of at least
    500 whenever its status is 'warning'. *)
Theorem generateTurbineData_recent_points
  (Math_sin : Q -> Q) (toISOString : Z -> string) (rt : Runtime) :
  Forall (fun p => 50 <= temperature p <= 80 /\ 3.5 <= vibration p <= 5.5 /\
                   (500 < power_output p -> status p = warning_status) /\
                   (status p = warning_status -> 500 <= power_output p))
         (skipn 33 (generateTurbineData Math_sin toISOString rt)).
Proof.
  rewrite generateTurbineData_points, skipn_map.
  change (skipn 33 hours_ago) with (rev (seq 0 15)).
  apply Forall_forall. intros p Hp. apply in_map_iff in Hp.
  destruct Hp as (j & <- & Hj). apply in_rev, in_seq in Hj.
  unfold generated_point. set (n := (2 * (47 - j))%nat).
  destruct (generated_sample_recent Math_sin rt j n) as (HT & HV & Hs & Hp1 & Hp2); [lia|].
  set (s := fst (simulate Math_sin rt j n)) in *.
  unfold dataPoint; cbn [status temperature vibration power_output].
  split; [|split; [|split]].
  - apply (Math_round_bounds 50 80). change (inject_Z 50) with 50.
    change (inject_Z 80) with 80. lra.
  - assert (Hr : inject_Z 35 <= Math_round (vibration_ s * 10) <= inject_Z 55).
    { apply Math_round_bounds. change (inject_Z 35) with 35. change (inject_Z 55) with 55. lra. }
    change (inject_Z 35) with 35 in Hr. change (inject_Z 55) with 55 in Hr.
    split; [apply Qle_shift_div_l | apply Qle_shift_div_r]; try reflexivity; lra.
  - intro H. apply Hs.
    pose proof (Math_round_above (powerOutput s) 500 H) as H1.
    pose proof (Math_round_le (powerOutput s)) as H2.
    change (inject_Z (500 + 1)) with 501 in H1. lra.
  - intro H. apply Hs in H.
    apply (Math_round_floor_le (powerOutput s) 500). change (inject_Z 500) with 500. lra.
Qed.

(** ** The performance alert of [analyzeAlerts] *)

Lemma js_div_finite (a b : Q) : ~ b == 0 -> js_div a b = Finite (a / b).
Proof.
  intro H. unfold js_div. destruct (Qeq_bool b 0) eqn:E; [|reflexivity].
  apply Qeq_bool_iff in E. contradiction.
Qed.

(** The mean over the empty window is [NaN]. *)
Lemma mean_power_empty : mean_power [] = NaN.
Proof. reflexivity. Qed.

Section PerformanceAlert.

Variable Number_toString : Q -> string.

(** On a non-empty array the result is the temperature alert (if any), the
    vibration alert (if any) and, exactly when line 92 holds, the performance
    alert. *)
Lemma analyzeAlerts_shape (init : list TurbineDataPoint) (latest : TurbineDataPoint) :
  exists perf : list TurbineAlert,
    analyzeAlerts Number_toString (init ++ [latest])
    = Return (temperature_alerts Number_toString latest
              ++ vibration_alerts Number_toString latest ++ perf) /\
    (if power_declining (init ++ [latest])
     then exists a, perf = [a] /\ id a = "perf-1"%string /\ type a = low_performance /\
                    severity a = warning /\ alert_timestamp a = timestamp latest
     else perf = []).
Proof.
  unfold power_declining, mean_power, temperature_alerts, vibration_alerts, analyzeAlerts.
  cbv zeta. rewrite index_last. cbn [member cbind].
  destruct (gt (temperature latest) 70) eqn:Ht;
    destruct (gt (vibration latest) 4.0) eqn:Hv;
    cbn [member cbind app];
    match goal with
    | |- context [if ?c then _ else _] => destruct c
    end;
    cbn [cbind app];
    eexists; (split; [reflexivity|]);
    first [ reflexivity | eexists; repeat split; reflexivity ].
Qed.

End PerformanceAlert.

Section AlertList.

Variable Number_toString : Q -> string.

(** Whether the performance alert is raised is whether line 92 holds. *)
Lemma low_performance_iff_declining (init : list TurbineDataPoint) (latest : TurbineDataPoint) :
  exists alerts : list TurbineAlert,
    analyzeAlerts Number_toString (init ++ [latest]) = Return alerts /\
    ((exists a, In a alerts /\ type a = low_performance)
     <-> power_declining (init ++ [latest]) = true).
Proof.
  destruct (analyzeAlerts_shape Number_toString init latest) as (perf & Hrun & Hperf).
  eexists. split; [exact Hrun|].
  unfold temperature_alerts, vibration_alerts.
  destruct (power_declining (init ++ [latest])).
  - destruct Hperf as (a & -> & _ & Hty & _). split; [reflexivity|]. intros _.
    exists a. split; [|exact Hty]. apply in_or_app. right. apply in_or_app. right.
    left. reflexivity.
  - subst perf. split; [|discriminate].
    intros (a & Hin & Hty). exfalso.
    destruct (gt (temperature latest) 70); destruct (gt (vibration latest) 4.0);
      cbn [app In] in Hin;
      repeat match type of Hin with
             | _ \/ _ => destruct Hin as [<- | Hin]
             | False => contradiction
             end; discriminate Hty.
Qed.

End AlertList.

(** X4.  On every non-empty array [analyzeAlerts] returns at most three
    alerts, no two of the same type and no two with the same id (the id is
    the key the alert section renders them under). *)
Theorem analyzeAlerts_distinct_alerts
  (Number_toString : Q -> string) (init : list TurbineDataPoint) (latest : TurbineDataPoint) :
  exists alerts : list TurbineAlert,
    analyzeAlerts Number_toString (init ++ [latest]) = Return alerts /\
    (List.length alerts <= 3)%nat /\
    NoDup (map type alerts) /\
    NoDup (map id alerts).
Proof.
  destruct (analyzeAlerts_shape Number_toString init latest) as (perf & Hrun & Hperf).
  eexists. split; [exact Hrun|].
  unfold temperature_alerts, vibration_alerts.
  destruct (power_declining (init ++ [latest]));
    [destruct Hperf as (a & -> & Hid & Hty & _) | subst perf];
    destruct (gt (temperature latest) 70); destruct (gt (vibration latest) 4.0);
    cbn [app map List.length type id]; rewrite ?Hid, ?Hty.
  all: split; [lia|].
  all: split; repeat constructor; cbn [In]; intuition discriminate.
Qed.

(** ** The two windows of the performance check *)

Lemma nonempty_of_length {A : Type} (l : list A) : (0 < List.length l)%nat -> l <> [].
Proof. intros H ->. cbn in H. lia. Qed.

(** With twelve points or fewer the older window is empty and line 92 fails. *)
Lemma power_declining_short (data : list TurbineDataPoint) :
  (List.length data <= 12)%nat -> power_declining data = false.
Proof.
  intro H. unfold power_declining. cbv zeta. rewrite slice_older.
  replace (List.length data - 12)%nat with 0%nat by lia. cbn [Nat.sub firstn].
  rewrite mean_power_empty. reflexivity.
Qed.

(** X5.  On an array of one to twelve points [analyzeAlerts] never raises the
    low_performance alert: the older window [slice(-24, -12)] is empty, its
    average is [NaN] and the comparison of line 92 is false. *)
Theorem analyzeAlerts_short_history_no_performance_alert
  (Number_toString : Q -> string) (init : list TurbineDataPoint) (latest : TurbineDataPoint) :
  (List.length init < 12)%nat ->
  mean_power (slice (init ++ [latest]) (-24) (Some (-12)%Z)) = NaN /\
  exists alerts : list TurbineAlert,
    analyzeAlerts Number_toString (init ++ [latest]) = Return alerts /\
    Forall (fun a => type a <> low_performance) alerts.
Proof.
  intro Hlen.
  assert (Hshort : (List.length (init ++ [latest]) <= 12)%nat)
    by (rewrite length_app; cbn; lia).
  split.
  - rewrite slice_older.
    replace (List.length (init ++ [latest]) - 12)%nat with 0%nat by lia.
    reflexivity.
  - destruct (low_performance_iff_declining Number_toString init latest)
      as (alerts & Hrun & Hiff).
    exists alerts. split; [exact Hrun|].
    apply Forall_forall. intros a Hin Hty.
    assert (Hd : power_declining (init ++ [latest]) = true)
      by (apply Hiff; exists a; split; assumption).
    rewrite power_declining_short in Hd by exact Hshort. discriminate.
Qed.

(** Three warm points: one of them is the latest, no performance alert. *)
Lemma analyzeAlerts_short_history_witness :
  mean_power (slice ([warm_point; warm_point] ++ [warm_point]) (-24) (Some (-12)%Z)) = NaN /\
  exists alerts : list TurbineAlert,
    analyzeAlerts show_tenths ([warm_point; warm_point] ++ [warm_point]) = Return alerts /\
    Forall (fun a => type a <> low_performance) alerts.
Proof.
  apply (analyzeAlerts_short_history_no_performance_alert
           show_tenths [warm_point; warm_point] warm_point).
  cbn. lia.
Defined.


(** ** Alerts on generated data *)



Section GeneratedAlerts.

Variable Math_sin : Q -> Q.
Variable toISOString : Z -> string.


End GeneratedAlerts.

Section AlertsAndStatus.

Variable Number_toString : Q -> string.


End AlertsAndStatus.


(** ** Averages *)

Lemma len_pos {A : Type} (l : list A) : l <> [] -> 0 < inject_Z (len l).
Proof.
  intro H. destruct l as [|a rest]; [contradiction|].
  unfold len. cbn [List.length]. change 0 with (inject_Z 0). rewrite <- Zlt_Qlt. lia.
Qed.

Lemma len_cons {A : Type} (a : A) (l : list A) :
  inject_Z (len (a :: l)) == inject_Z (len l) + 1.
Proof.
  unfold len. cbn [List.length]. rewrite Nat2Z.inj_succ, <- Z.add_1_r, inject_Z_plus.
  reflexivity.
Qed.

(** A sum of values between [lo] and [hi] lies between [lo] and [hi] times
    the number of values. *)
Lemma reduce_sum_bounds {A : Type} (f : A -> Q) (lo hi : Q) (l : list A) :
  Forall (fun a => lo <= f a <= hi) l ->
  lo * inject_Z (len l) <= reduce_sum f l <= hi * inject_Z (len l).
Proof.
  intro H. unfold reduce_sum.
  enough (G : forall acc, acc + lo * inject_Z (len l)
                          <= fold_left (fun sum d => sum + f d) l acc
                          <= acc + hi * inject_Z (len l)).
  { specialize (G 0). lra. }
  induction H as [|a l Ha Hl IH]; intro acc.
  - cbn [fold_left]. change (inject_Z (len (@nil A))) with 0. lra.
  - cbn [fold_left]. specialize (IH (acc + f a)).
    pose proof (len_cons a l) as E. rewrite E. lra.
Qed.

(** The mean of values between [lo] and [hi] lies between [lo] and [hi]. *)
Lemma mean_bounds {A : Type} (f : A -> Q) (lo hi : Q) (l : list A) :
  l <> [] -> Forall (fun a => lo <= f a <= hi) l ->
  lo <= reduce_sum f l / inject_Z (len l) <= hi.
Proof.
  intros Hne H. pose proof (len_pos l Hne) as Hpos.
  destruct (reduce_sum_bounds f lo hi l H) as (H1 & H2).
  split; [apply Qle_shift_div_l | apply Qle_shift_div_r]; assumption.
Qed.

Lemma app_last_nonempty {A : Type} (init : list A) (x : A) : init ++ [x] <> [].
Proof. destruct init; discriminate. Qed.

(** What [calculateMetrics] returns on a non-empty array. *)
Lemma calculateMetrics_last (init : list TurbineDataPoint) (latest : TurbineDataPoint) :
  calculateMetrics (init ++ [latest])
  = Return {| avgPower :=
                Finite (Math_round (reduce_sum power_output (init ++ [latest])
                                    / inject_Z (len (init ++ [latest]))));
              avgWindSpeed :=
                Finite (Math_round (reduce_sum wind_speed (init ++ [latest])
                                    / inject_Z (len (init ++ [latest])) * 10) / 10);
              currentStatus := status latest;
              currentPower := power_output latest;
              currentWindSpeed := wind_speed latest;
              currentTemp := temperature latest;
              currentVibration := vibration latest |}.
Proof.
  unfold calculateMetrics. cbv zeta. rewrite index_last. cbn [member cbind].
  assert (Hn : ~ inject_Z (len (init ++ [latest])) == 0).
  { pose proof (len_pos _ (app_last_nonempty init latest)) as H. lra. }
  rewrite !(js_div_finite _ _ Hn). cbn [num_round num_scale num_div].
  rewrite js_div_finite by discriminate. reflexivity.
Qed.


(** ** The dashboard page *)

Lemma Math_max_cases (a b : Q) :
  (Math_max a b = a \/ Math_max a b = b) /\ a <= Math_max a b /\ b <= Math_max a b.
Proof.
  unfold Math_max. destruct (Qle_bool a b) eqn:E.
  - apply Qle_bool_iff in E. repeat split; [right; reflexivity | exact E | apply Qle_refl].
  - assert (b < a).
    { apply Qnot_le_lt. intro H. apply Qle_bool_iff in H. congruence. }
    repeat split; [left; reflexivity | apply Qle_refl | apply Qlt_le_weak; assumption].
Qed.

(** The running maximum is one of the numbers and none of them exceeds it. *)
Lemma fold_Math_max (rest : list Q) :
  forall x : Q,
    In (fold_left Math_max rest x) (x :: rest) /\
    Forall (fun y => y <= fold_left Math_max rest x) (x :: rest).
Proof.
  induction rest as [|y rest IH]; intro x; cbn [fold_left].
  - split; [left; reflexivity | constructor; [apply Qle_refl | constructor]].
  - destruct (IH (Math_max x y)) as (Hin & Hall).
    destruct (Math_max_cases x y) as (Hcase & Hx & Hy).
    inversion Hall as [|m l Hm Hrest]; subst.
    split.
    + destruct Hin as [Hin | Hin].
      * destruct Hcase as [E | E]; [left | right; left];
          rewrite <- Hin; symmetry; exact E.
      * right; right; exact Hin.
    + constructor; [eapply Qle_trans; eassumption|].
      constructor; [eapply Qle_trans; eassumption | exact Hrest].
Qed.

(** [Math.max(...xs)] of a non-empty list. *)
Lemma Math_max_spread_spec (xs : list Q) :
  xs <> [] ->
  exists m, Math_max_spread xs = Finite m /\ In m xs /\ Forall (fun y => y <= m) xs.
Proof.
  intro H. destruct xs as [|x rest]; [contradiction|].
  exists (fold_left Math_max rest x). split; [reflexivity | apply fold_Math_max].
Qed.

Lemma len_last_nonzero {A : Type} (init : list A) (x : A) :
  (len (init ++ [x]) =? 0)%Z = false.
Proof.
  apply Z.eqb_neq. unfold len. rewrite length_app. cbn. lia.
Qed.

(** X9.  The dashboard page never throws: on the empty state it renders the
    loading placeholder, and on every other state it renders the page with
    the alerts [analyzeAlerts] returns for the data, the data as the chart's,
    and as peak power a finite number that is the power output of one of the
    points and that no point exceeds. *)
Theorem Dashboard_never_throws (Number_toString : Q -> string) :
  Dashboard Number_toString [] = Return LoadingView /\
  forall (init : list TurbineDataPoint) (latest : TurbineDataPoint),
  exists (cards : DashboardCards) (alerts : list TurbineAlert) (peak : Q),
    Dashboard Number_toString (init ++ [latest])
    = Return (DashboardPage cards (init ++ [latest]) alerts) /\
    analyzeAlerts Number_toString (init ++ [latest]) = Return alerts /\
    card_peakPower cards = Finite peak /\
    (exists p, In p (init ++ [latest]) /\ power_output p = peak) /\
    Forall (fun p => power_output p <= peak) (init ++ [latest]).
Proof.
  split; [reflexivity|]. intros init latest.
  destruct (analyzeAlerts_shape Number_toString init latest) as (perf & Hrun & _).
  destruct (Math_max_spread_spec (map power_output (init ++ [latest])))
    as (peak & Hpeak & Hin & Hall).
  { intro E. apply map_eq_nil in E. exact (app_last_nonempty init latest E). }
  unfold Dashboard. rewrite len_last_nonzero, Hrun, calculateMetrics_last.
  cbn [cbind]. do 3 eexists. split; [reflexivity|].
  split; [reflexivity|]. cbn [card_peakPower]. split; [exact Hpeak|]. split.
  - apply in_map_iff in Hin. destruct Hin as (p & E & Hp). exists p. split; assumption.
  - rewrite Forall_map in Hall. exact Hall.
Qed.

Section GeneratedDashboard.

Variable Math_sin : Q -> Q.
Variable toISOString : Z -> string.

(** Every point of a call lies in the ranges of the generator. *)
Lemma generated_points_in_range (rt : Runtime) :
  Forall point_in_range (generateTurbineData Math_sin toISOString rt).
Proof.
  rewrite generateTurbineData_points. apply Forall_map, Forall_forall.
  intros j _. apply dataPoint_in_range, simulate_in_range.
Qed.

End GeneratedDashboard.

(** X10.  On the data of any call of [generateTurbineData] the dashboard
    renders the page, with an average power between 0 and 2000, an average
    wind speed between 3 and 15, a peak power between 0 and 2000, and an
    efficiency figure between 0 and 200/3: it divides by 3000 a power the
    generator caps at 2000, so it never shows more than 66.7%. *)
Theorem Dashboard_on_generated_data
  (Math_sin : Q -> Q) (toISOString : Z -> string) (Number_toString : Q -> string)
  (rt : Runtime) :
  exists (cards : DashboardCards) (alerts : list TurbineAlert) (power wind peak eff : Q),
    Dashboard Number_toString (generateTurbineData Math_sin toISOString rt)
    = Return (DashboardPage cards (generateTurbineData Math_sin toISOString rt) alerts) /\
    card_avgPower cards = Finite power /\ 0 <= power <= 2000 /\
    card_avgWindSpeed cards = Finite wind /\ 3 <= wind <= 15 /\
    card_peakPower cards = Finite peak /\ 0 <= peak <= 2000 /\
    card_efficiency cards = Finite eff /\ 0 <= eff <= 200 # 3.
Proof.
  pose proof (generated_points_in_range Math_sin toISOString rt) as Hrange.
  rewrite generateTurbineData_points in *.
  change hours_ago with (rev (seq 1 47) ++ [0%nat]) in *. rewrite map_app in *.
  cbn [map] in *.
  set (init := map _ (rev (seq 1 47))) in *.
  set (latest := generated_point Math_sin toISOString rt 0) in *.
  clearbody init latest.
  assert (Hne := app_last_nonempty init latest).
  assert (HP : Forall (fun p => inject_Z 0 <= power_output p <= inject_Z 2000) (init ++ [latest])).
  { eapply Forall_impl; [|exact Hrange]. intros p (_ & H & _). exact H. }
  assert (HW : Forall (fun p => 3 <= wind_speed p <= 15) (init ++ [latest])).
  { eapply Forall_impl; [|exact Hrange]. intros p (H & _). exact H. }
  destruct (analyzeAlerts_shape Number_toString init latest) as (perf & Hrun & _).
  destruct (Math_max_spread_spec (map power_output (init ++ [latest])))
    as (peak & Hpeak & Hin & _).
  { intro E. apply map_eq_nil in E. exact (Hne E). }
  unfold Dashboard. rewrite len_last_nonzero, Hrun, calculateMetrics_last.
  cbn [cbind avgPower avgWindSpeed].
  set (power := Math_round (reduce_sum power_output (init ++ [latest]) / _)).
  set (wmean := reduce_sum wind_speed (init ++ [latest]) / _).
  assert (Hpower : 0 <= power <= 2000).
  { apply (Math_round_bounds 0 2000). apply mean_bounds; assumption. }
  assert (Hwmean : 3 <= wmean <= 15) by (apply mean_bounds; assumption).
  assert (Hwr : inject_Z 30 <= Math_round (wmean * 10) <= inject_Z 150).
  { apply Math_round_bounds. change (inject_Z 30) with 30. change (inject_Z 150) with 150. lra. }
  change (inject_Z 30) with 30 in Hwr. change (inject_Z 150) with 150 in Hwr.
  exists {| card_avgPower := Finite power;
            card_avgWindSpeed := Finite (Math_round (wmean * 10) / 10);
            card_peakPower := Math_max_spread (map power_output (init ++ [latest]));
            card_efficiency := num_scale (num_div (Finite power) (Finite 3000)) 100 |}.
  exists (temperature_alerts Number_toString latest
          ++ vibration_alerts Number_toString latest ++ perf).
  exists power, (Math_round (wmean * 10) / 10), peak, (power / 3000 * 100).
  cbn [card_avgPower card_avgWindSpeed card_peakPower card_efficiency].
  split; [reflexivity|]. split; [reflexivity|]. split; [exact Hpower|].
  split; [reflexivity|]. split.
  { split; [apply Qle_shift_div_l | apply Qle_shift_div_r]; try reflexivity; lra. }
  split; [exact Hpeak|]. split.
  { apply in_map_iff in Hin. destruct Hin as (p & <- & Hp).
    rewrite Forall_forall in HP. apply (HP p Hp). }
  split.
  { cbn [num_div]. rewrite js_div_finite by discriminate. reflexivity. }
  assert (Hq := Qdiv_as_mult power 3000). change (inject_Z 3000) with 3000 in Hq.
  lra.
Qed.

(** ** The chat fallback *)

Ltac split_ifs :=
  repeat match goal with
         | |- context [if ?c then _ else _] => destruct c
         end.

Section Fallback.

Variable toLowerCase : string -> string.
Variable toUpperCase : string -> string.
Variable Number_toString : Q -> string.

Let fallback := generateFallbackResponse toLowerCase toUpperCase Number_toString.

(** On a non-empty array the fallback answers. *)
Lemma fallback_answers (question : string)
  (init : list TurbineDataPoint) (latest : TurbineDataPoint) :
  exists answer : string, fallback question (init ++ [latest]) = Return answer.
Proof.
  unfold fallback, generateFallbackResponse. cbv zeta.
  rewrite index_last. cbn [member cbind].
  destruct (includes (toLowerCase question) "status" || includes (toLowerCase question) "current");
    [eexists; reflexivity|].
  destruct (includes (toLowerCase question) "issue" || includes (toLowerCase question) "problem"
            || includes (toLowerCase question) "wrong").
  - destruct (gt (temperature latest) 70); destruct (gt (vibration latest) 4.0);
      cbn [member cbind app]; split_ifs; eexists; reflexivity.
  - split_ifs; eexists; reflexivity.
Qed.

(** On the empty array the fallback throws exactly when the question makes
    it read the latest point; otherwise it gives one of its constant answers. *)
Lemma fallback_empty (question : string) :
  fallback question []
  = if reads_latest toLowerCase question then Throw TypeError
    else if includes (toLowerCase question) "power curve"
            || includes (toLowerCase question) "explain"
         then Return power_curve_answer else Return help_answer.
Proof.
  unfold fallback, generateFallbackResponse, reads_latest. cbv zeta.
  change (index (@nil TurbineDataPoint) (len (@nil TurbineDataPoint) - 1)) with (@None TurbineDataPoint).
  destruct (includes (toLowerCase question) "status");
    destruct (includes (toLowerCase question) "current");
    destruct (includes (toLowerCase question) "issue");
    destruct (includes (toLowerCase question) "problem");
    destruct (includes (toLowerCase question) "wrong");
    destruct (includes (toLowerCase question) "summary");
    destruct (includes (toLowerCase question) "performance");
    reflexivity.
Qed.

(** A question without any of the seven keywords never makes the fallback
    look at the data. *)
Lemma fallback_without_keywords (question : string) (data : list TurbineDataPoint) :
  reads_latest toLowerCase question = false ->
  fallback question data
  = if includes (toLowerCase question) "power curve"
       || includes (toLowerCase question) "explain"
    then Return power_curve_answer else Return help_answer.
Proof.
  unfold fallback, generateFallbackResponse, reads_latest. cbv zeta. intro H.
  destruct (includes (toLowerCase question) "status");
    destruct (includes (toLowerCase question) "current");
    destruct (includes (toLowerCase question) "issue");
    destruct (includes (toLowerCase question) "problem");
    destruct (includes (toLowerCase question) "wrong");
    destruct (includes (toLowerCase question) "summary");
    destruct (includes (toLowerCase question) "performance");
    try discriminate H; reflexivity.
Qed.

(** The answer to a question about issues, on a non-empty array. *)
Lemma fallback_issues (question : string)
  (init : list TurbineDataPoint) (latest : TurbineDataPoint) :
  includes (toLowerCase question) "status" = false ->
  includes (toLowerCase question) "current" = false ->
  includes (toLowerCase question) "issue" || includes (toLowerCase question) "problem"
  || includes (toLowerCase question) "wrong" = true ->
  exists answer : string,
    fallback question (init ++ [latest]) = Return answer /\
    (answer = no_issues_answer
     <-> gt (temperature latest) 70 = false /\ gt (vibration latest) 4.0 = false).
Proof.
  intros H1 H2 H3. unfold fallback, generateFallbackResponse. cbv zeta.
  rewrite index_last, H1, H2, H3. cbn [orb member cbind].
  destruct (gt (temperature latest) 70); destruct (gt (vibration latest) 4.0);
    cbn [member cbind app]; eexists; (split; [reflexivity|]).
  all: split; [intro E | intros (E1 & E2)]; try discriminate; try reflexivity.
  all: try (split; reflexivity).
  all: exfalso; unfold no_issues_answer in E; cbn [append] in E; discriminate E.
Qed.

End Fallback.

(** X11.  The chat fallback answers on every non-empty array.  On the empty
    array it throws (reading a property of the missing latest point) exactly
    when the lower-cased question contains 'status', 'current', 'issue',
    'problem', 'wrong', 'summary' or 'performance'; a question with none of
    these gets the power-curve explanation or the help text whatever the
    data, the empty array included. *)
Theorem generateFallbackResponse_throws_iff
  (toLowerCase toUpperCase : string -> string) (Number_toString : Q -> string)
  (question : string) :
  (forall init latest, exists answer : string,
      generateFallbackResponse toLowerCase toUpperCase Number_toString question
        (init ++ [latest]) = Return answer) /\
  (generateFallbackResponse toLowerCase toUpperCase Number_toString question []
   = Throw TypeError <-> reads_latest toLowerCase question = true) /\
  (reads_latest toLowerCase question = false ->
   forall data,
     generateFallbackResponse toLowerCase toUpperCase Number_toString question data
     = Return power_curve_answer \/
     generateFallbackResponse toLowerCase toUpperCase Number_toString question data
     = Return help_answer).
Proof.
  split; [|split].
  - intros init latest. apply fallback_answers.
  - rewrite fallback_empty. destruct (reads_latest toLowerCase question).
    + split; reflexivity.
    + split; [|discriminate].
      destruct (includes _ "power curve" || includes _ "explain"); discriminate.
  - intros H data. rewrite (fallback_without_keywords _ _ _ _ _ H).
    destruct (includes _ "power curve" || includes _ "explain"); [left | right]; reflexivity.
Qed.

(** X12.  For a question about issues (one that contains 'issue', 'problem'
    or 'wrong' and neither 'status' nor 'current'), the fallback uses the
    thresholds of [analyzeAlerts]: on a non-empty array it answers that no
    issues were detected exactly when [analyzeAlerts] raises no high_temp and
    no high_vibration alert; a low_performance alert does not change its
    answer. *)
Theorem generateFallbackResponse_issues_agree_with_alerts
  (toLowerCase toUpperCase : string -> string) (Number_toString : Q -> string)
  (question : string) (init : list TurbineDataPoint) (latest : TurbineDataPoint) :
  includes (toLowerCase question) "status" = false ->
  includes (toLowerCase question) "current" = false ->
  includes (toLowerCase question) "issue" || includes (toLowerCase question) "problem"
  || includes (toLowerCase question) "wrong" = true ->
  exists (answer : string) (alerts : list TurbineAlert),
    generateFallbackResponse toLowerCase toUpperCase Number_toString question
      (init ++ [latest]) = Return answer /\
    analyzeAlerts Number_toString (init ++ [latest]) = Return alerts /\
    (answer = no_issues_answer <-> Forall (fun a => type a = low_performance) alerts).
Proof.
  intros H1 H2 H3.
  destruct (fallback_issues toLowerCase toUpperCase Number_toString question init latest
              H1 H2 H3) as (answer & Hanswer & Hiff).
  destruct (analyzeAlerts_shape Number_toString init latest) as (perf & Hrun & Hperf).
  exists answer. eexists. split; [exact Hanswer | split; [exact Hrun|]].
  assert (HP : Forall (fun a => type a = low_performance) perf).
  { destruct (power_declining (init ++ [latest])).
    - destruct Hperf as (a & -> & _ & Hty & _). constructor; [exact Hty | constructor].
    - subst perf. constructor. }
  rewrite Hiff. unfold temperature_alerts, vibration_alerts.
  destruct (gt (temperature latest) 70); destruct (gt (vibration latest) 4.0);
    cbn [app]; split.
  all: try (intros (E1 & E2); discriminate).
  all: try (intros _; exact HP).
  all: try (intro H; inversion H as [|a l Hty Hl]; subst; discriminate Hty).
  all: intros _; split; reflexivity.
Qed.

(** The question "Any issue?" on a single warm point. *)
Lemma generateFallbackResponse_issues_witness :
  exists (answer : string) (alerts : list TurbineAlert),
    generateFallbackResponse lower_ascii lower_ascii show_tenths "Any issue?"
      ([] ++ [warm_point]) = Return answer /\
    analyzeAlerts show_tenths ([] ++ [warm_point]) = Return alerts /\
    (answer = no_issues_answer <-> Forall (fun a => type a = low_performance) alerts).
Proof.
  apply (generateFallbackResponse_issues_agree_with_alerts
           lower_ascii lower_ascii show_tenths "Any issue?" [] warm_point);
    reflexivity.
Defined.

(** ** The request of the chat panel *)

(** [a.slice(-k)] for a positive [k] is the suffix of the last [k] elements,
    the whole array when it has fewer. *)
Lemma slice_last_elements {A : Type} (a : list A) (k : positive) :
  slice a (Zneg k) None = skipn (List.length a - Pos.to_nat k) a /\
  List.length (slice a (Zneg k) None) = Nat.min (Pos.to_nat k) (List.length a).
Proof.
  assert (E : slice a (Zneg k) None = skipn (List.length a - Pos.to_nat k) a).
  { unfold slice, relative_index, len. cbn [Z.ltb Z.compare].
    replace (Z.to_nat (Z.max (Z.of_nat (List.length a) + Z.neg k) 0))
      with (List.length a - Pos.to_nat k)%nat by lia.
    apply firstn_all2. rewrite length_skipn. lia. }
  split; [exact E|]. rewrite E, length_skipn. lia.
Qed.

(** X13.  The body [sendMessage] posts carries the question unchanged, the
    last 24 data points (all of them when there are fewer) and the last 6
    messages (all of them when there are fewer), each in their order. *)
Theorem requestBody_recent_context
  (question : string) (turbineData : list TurbineDataPoint) (messages : list Message) :
  request_question (requestBody question turbineData messages) = question /\
  request_turbineData (requestBody question turbineData messages)
  = skipn (List.length turbineData - 24) turbineData /\
  List.length (request_turbineData (requestBody question turbineData messages))
  = Nat.min 24 (List.length turbineData) /\
  request_messages (requestBody question turbineData messages)
  = skipn (List.length messages - 6) messages /\
  List.length (request_messages (requestBody question turbineData messages))
  = Nat.min 6 (List.length messages).
Proof.
  unfold requestBody. cbn [request_question request_turbineData request_messages].
  destruct (slice_last_elements turbineData 24) as (E1 & L1).
  destruct (slice_last_elements messages 6) as (E2 & L2).
  repeat split; assumption.
Qed.

(** ** The background orbs *)

(** The six orbs of a call, with the draws each is made from. *)
Lemma generateOrbs_unfold (rt : Runtime) :
  Background.generateOrbs rt
  = map (fun i => fst (Background.newOrb rt i (6 * i)%nat)) (seq 0 6).
Proof. reflexivity. Qed.

Lemma newOrb_in_range (rt : Runtime) (i n : nat) :
  Background.unit_draws rt -> Background.in_range (fst (Background.newOrb rt i n)).
Proof.
  intro H. unfold Background.in_range, Background.newOrb, rbind, Math_random, rret.
  cbn [fst Background.x Background.y Background.size Background.duration
       Background.delay].
  pose proof (H n) as H0. pose proof (H (S n)) as H1. pose proof (H (S (S n))) as H2.
  pose proof (H (S (S (S n)))) as H3. pose proof (H (S (S (S (S n))))) as H4.
  repeat split; lra.
Qed.

(** X14.  [generateOrbs] makes six orbs with the ids 0 to 5 in order; when
    every draw of [Math.random()] lies in [0, 1), each orb has x and y
    between 0 and 100, a size between 200 and 500, a duration between 20 and
    35 and a delay between -20 and 0, ends included. *)
Theorem generateOrbs_six_in_range (rt : Runtime) :
  Background.unit_draws rt ->
  map Background.id (Background.generateOrbs rt) = seq 0 6 /\
  Forall Background.in_range (Background.generateOrbs rt).
Proof.
  intro H. split; [reflexivity|].
  rewrite generateOrbs_unfold. apply Forall_map, Forall_forall.
  intros i _. apply newOrb_in_range, H.
Qed.

(** The platform whose generator always returns 1/2. *)
Lemma generateOrbs_six_in_range_witness :
  map Background.id (Background.generateOrbs gusty) = seq 0 6 /\
  Forall Background.in_range (Background.generateOrbs gusty).
Proof.
  apply (generateOrbs_six_in_range gusty).
  intro n. cbn. lra.
Defined.
